(** * School attendance tracker: the attendance store, the edit session
      and the two report exporters of [App.tsx], with the constants of
      [constants.ts] and the types of [types.ts]. *)

From Stdlib Require Import ZArith String Ascii List DecimalString.
From Stdlib Require Import Floats.SpecFloat.
From stdpp Require Import base decidable countable option list gmap fin_maps strings sorting.

Local Open Scope Z_scope.
Local Open Scope string_scope.

(** ** types.ts *)

(** [enum ClassGrade]: five members, each with a string value. *)
Inductive ClassGrade : Type :=
  | SIXTH
  | SEVENTH
  | EIGHTH
  | NINTH
  | TENTH.

(** The string value of an enum member; it is the key under which the
    grade lives in the attendance object and the text printed in a report. *)
Definition grade_value (g : ClassGrade) : string :=
  match g with
  | SIXTH => "6th Grade"
  | SEVENTH => "7th Grade"
  | EIGHTH => "8th Grade"
  | NINTH => "9th Grade"
  | TENTH => "10th Grade"
  end.

(** [interface DailyAttendanceRecord].  The two fields are JavaScript
    numbers that hold integers: the only writer is
    [parseInt(e.target.value, 10) || 0].  They are modelled as [Z]; a
    negative or an oversized count is representable, as it is in the
    program. *)
Record DailyAttendanceRecord : Type := mkRecord {
  present : Z;
  absent : Z
}.

(** [type ClassAttendanceData]: a JavaScript object from grade value to an
    object from date string to record.  Both levels are used as maps
    only: every reader goes through a key, and the exporters sort the
    date keys they collect. *)
Abbreviation DateMap := (gmap string DailyAttendanceRecord).
Abbreviation ClassAttendanceData := (gmap string (gmap string DailyAttendanceRecord)).

(** The edit buffer [editingDailyAttendance]: grade value to pending pair. *)
Abbreviation EditBuffer := (gmap string DailyAttendanceRecord).

(** ** constants.ts *)

Definition CLASS_GRADES : list ClassGrade :=
  [SIXTH; SEVENTH; EIGHTH; NINTH; TENTH].

Definition CLASS_STRENGTHS (g : ClassGrade) : Z :=
  match g with
  | SIXTH => 19
  | SEVENTH => 48
  | EIGHTH => 47
  | NINTH => 56
  | TENTH => 66
  end.

(** ** App.tsx: the attendance store *)

(** [CLASS_GRADES.reduce((acc, grade) => { acc[grade] = {}; return acc; }, {})] *)
Definition INITIAL_CLASS_ATTENDANCE_DATA : ClassAttendanceData :=
  foldl (fun acc grade => <[grade_value grade := (∅ : DateMap)]> acc) ∅ CLASS_GRADES.

(** [data[grade]?.[date]], read among the keys the two objects hold
    themselves.  The program's read goes on to [Object.prototype] when the
    date map lacks the key, so the two agree unless [date] is the name of
    one of its members (see [Object_prototype_keys] and [read_daily]
    below).  The selected date and every date the component writes come
    from [toISOString], which never gives such a name; the exporters read
    under every date key of the store, and agree with the program on the
    stores of [plain_dates]. *)
Definition lookup_record (data : ClassAttendanceData) (grade date : string)
  : option DailyAttendanceRecord :=
  match data !! grade with
  | Some dates => dates !! date
  | None => None
  end.

(** The updater passed to [setClassAttendanceData] by
    [handleUpdateDailyClassAttendance]: spread of [prevData[grade]] (nothing
    when the grade is not a key) with [date] overwritten, then spread of
    [prevData] with [grade] overwritten. *)
Definition updateDailyClassAttendance
    (grade : ClassGrade) (date : string) (p a : Z)
    (prevData : ClassAttendanceData) : ClassAttendanceData :=
  let updatedGradeAttendance : DateMap :=
    <[date := mkRecord p a]> (default ∅ (prevData !! grade_value grade)) in
  <[grade_value grade := updatedGradeAttendance]> prevData.

(** ** JavaScript numbers

    Arithmetic on numbers is IEEE 754 binary64, round to nearest even:
    the Standard Library's executable specification [SpecFloat] at
    precision 53 and maximal exponent 1024. *)

Abbreviation number := spec_float.

(** The number that holds an integer: the integer itself below 2^53 in
    magnitude, the nearest binary64 value beyond. *)
Definition number_of_Z (z : Z) : number := binary_normalize 53 1024 z 0 false.
Definition num_add : number -> number -> number := SFadd 53 1024.
Definition num_sub : number -> number -> number := SFsub 53 1024.
Definition num_mul : number -> number -> number := SFmul 53 1024.
Definition num_div : number -> number -> number := SFdiv 53 1024.
(** [x > y] on numbers; false as soon as one side is NaN. *)
Definition num_gt (x y : number) : bool := SFltb y x.

(** Decimal digits of a natural number, ["0"] for zero. *)
Definition digits_of_N (n : N) : string := NilZero.string_of_uint (N.to_uint n).

(** The decimal digits of an integer, with a leading minus sign when it is
    negative: [Number::toString] of an integer below 2^53 in magnitude. *)
Definition digits_of_Z (z : Z) : string :=
  match z with
  | Zneg p => "-" ++ digits_of_N (Npos p)
  | _ => digits_of_N (Z.to_N z)
  end.

Definition LF : string := String (ascii_of_nat 10) EmptyString.

(** ** The host environment

    What the program takes from the browser and from jsPDF and that is not
    its own code.  [JSON_parse] is [JSON.parse] on a string written by an
    earlier [JSON.stringify] of the store, [None] when it throws (a parsed
    value without keys of its own, such as [null], spreads like the empty
    map);
    [Number_toString] is [Number::toString], used for a count of magnitude
    2^53 or more and by [toFixed] for a magnitude of at least 10^21; [addDays k s] is the date text of
    [new Date(s)] after [setDate(getDate() + k)], which depends on the time
    zone; [today] is what [getTodayDate()] returns; the page size is the one
    of [new jsPDF()]. *)
Record Host : Type := mkHost {
  JSON_parse : string -> option ClassAttendanceData;
  Number_toString : number -> string;
  addDays : Z -> string -> string;
  today : string;
  pageWidth : number;
  pageHeight : number
}.

(** The text of a count, [`${n}`] and [n.toString()].  Below 2^53 in
    magnitude every integer is a number of its own and [Number::toString]
    gives its decimal digits; from there on the count is held as the
    nearest number, whose text (its shortest digits that read back as the
    same number, in exponent form from 10^21) is the host's. *)
Definition count_toString (H : Host) (n : Z) : string :=
  if (Z.abs n <? 2 ^ 53)%Z then digits_of_Z n
  else Number_toString H (number_of_Z n).

(** ** Percentages *)

(** The percentage expression of both exporters,
    [totalRecorded > 0 ? (count / totalRecorded) * 100 : 0],
    together with the list of denominators the [/] operator was applied to
    while it was evaluated. *)
Definition percentage_traced (count totalRecorded : number)
  : number * list number :=
  if num_gt totalRecorded (number_of_Z 0)
  then (num_mul (num_div count totalRecorded) (number_of_Z 100), [totalRecorded])
  else (number_of_Z 0, []).

Definition percentage (count totalRecorded : number) : number :=
  fst (percentage_traced count totalRecorded).

(** [dailyRecord.present + dailyRecord.absent] *)
Definition totalRecorded (r : DailyAttendanceRecord) : number :=
  num_add (number_of_Z (present r)) (number_of_Z (absent r)).

Definition dailyPresentPercentage (r : DailyAttendanceRecord) : number :=
  percentage (number_of_Z (present r)) (totalRecorded r).

Definition dailyAbsentPercentage (r : DailyAttendanceRecord) : number :=
  percentage (number_of_Z (absent r)) (totalRecorded r).

(** Every denominator used while the two percentages of a record are
    computed. *)
Definition divisions_of_record (r : DailyAttendanceRecord) : list number :=
  snd (percentage_traced (number_of_Z (present r)) (totalRecorded r)) ++
  snd (percentage_traced (number_of_Z (absent r)) (totalRecorded r)).

(** ** [Number.prototype.toFixed(1)]

    For a finite [x] below 10^21 in magnitude: the integer [n] for which
    [n / 10 - x] is closest to zero, the larger one on a tie, printed with
    one digit after the point.  The value of a finite number is
    [m * 2^e], so [n] is computed exactly. *)
Definition tenths_nearest (m : positive) (e : Z) : N :=
  match e with
  | Zneg k => Z.to_N ((20 * Zpos m + 2 ^ Zpos k) / (2 * 2 ^ Zpos k))
  | _ => Z.to_N (10 * Zpos m * 2 ^ e)
  end.

Definition at_least_1e21 (m : positive) (e : Z) : bool :=
  match e with
  | Zneg k => (10 ^ 21 * 2 ^ Zpos k <=? Zpos m)%Z
  | _ => (10 ^ 21 <=? Zpos m * 2 ^ e)%Z
  end.

(** Steps 10.b to 10.d of the algorithm with one fraction digit: pad the
    digits of [n] with zeros to two characters at least, then put the
    point before the last one. *)
Definition insert_point (n : N) : string :=
  let m := digits_of_N n in
  let m := if (String.length m <=? 1)%nat then "0" ++ m else m in
  let k := String.length m in
  substring 0 (k - 1) m ++ "." ++ substring (k - 1) 1 m.

Definition toFixed1 (H : Host) (x : number) : string :=
  match x with
  | S754_nan => "NaN"
  | S754_infinity false => "Infinity"
  | S754_infinity true => "-Infinity"
  | S754_zero _ => "0.0"
  | S754_finite s m e =>
      (if s then "-" else "") ++
      (if at_least_1e21 m e
       then Number_toString H (S754_finite false m e)
       else insert_point (tenths_nearest m e))
  end.

(** ** App.tsx: component state and handlers *)

(** The four [useState] cells of [App]. *)
Record AppState : Type := mkState {
  classAttendanceData : ClassAttendanceData;
  selectedDate : string;
  editingDailyAttendance : EditBuffer;
  isBulkEditing : bool
}.

(** What [localStorage.getItem] did: threw, returned [null], or returned
    a string. *)
Inductive StorageRead : Type :=
  | GetItemThrows
  | NoItem
  | Item (storedData : string).

(** The initialiser of the [classAttendanceData] cell.  An empty string is
    falsy; a parsed snapshot is spread over the initial structure, so its
    keys win. *)
Definition load (H : Host) (stored : StorageRead) : ClassAttendanceData :=
  match stored with
  | GetItemThrows => INITIAL_CLASS_ATTENDANCE_DATA
  | NoItem => INITIAL_CLASS_ATTENDANCE_DATA
  | Item storedData =>
      if decide (storedData = "") then INITIAL_CLASS_ATTENDANCE_DATA
      else match JSON_parse H storedData with
           | Some parsedData => parsedData ∪ INITIAL_CLASS_ATTENDANCE_DATA
           | None => INITIAL_CLASS_ATTENDANCE_DATA
           end
  end.

Definition initial_state (H : Host) (stored : StorageRead) : AppState :=
  mkState (load H stored) (today H) ∅ false.

(** [goToPreviousDay] and [goToNextDay] *)
Definition goToPreviousDay (H : Host) (st : AppState) : AppState :=
  mkState (classAttendanceData st) (addDays H (-1) (selectedDate st)) ∅ false.

Definition goToNextDay (H : Host) (st : AppState) : AppState :=
  mkState (classAttendanceData st) (addDays H 1 (selectedDate st)) ∅ false.

(** [handleUpdateDailyClassAttendance]: the store update, and outside bulk
    mode the removal of the grade from the edit buffer. *)
Definition handleUpdateDailyClassAttendance
    (grade : ClassGrade) (date : string) (p a : Z) (st : AppState) : AppState :=
  mkState
    (updateDailyClassAttendance grade date p a (classAttendanceData st))
    (selectedDate st)
    (if isBulkEditing st then editingDailyAttendance st
     else delete (grade_value grade) (editingDailyAttendance st))
    (isBulkEditing st).

(** The [field] argument of [handleEditInputChange]. *)
Inductive Field : Type :=
  | FieldPresent
  | FieldAbsent.

(** [{ ...currentEdit, [field]: value }] *)
Definition set_field (field : Field) (value : Z) (currentEdit : DailyAttendanceRecord)
  : DailyAttendanceRecord :=
  match field with
  | FieldPresent => mkRecord value (absent currentEdit)
  | FieldAbsent => mkRecord (present currentEdit) value
  end.

Definition zero_record : DailyAttendanceRecord := mkRecord 0 0.

(** [handleEditInputChange] *)
Definition handleEditInputChange
    (grade : ClassGrade) (field : Field) (value : Z) (st : AppState) : AppState :=
  let prev := editingDailyAttendance st in
  let currentEdit := default zero_record (prev !! grade_value grade) in
  mkState (classAttendanceData st) (selectedDate st)
          (<[grade_value grade := set_field field value currentEdit]> prev)
          (isBulkEditing st).

(** [classAttendanceData[grade]?.[selectedDate] || { present: 0, absent: 0 }],
    the value shown for a grade on a date. *)
Definition currentDailyRecord (data : ClassAttendanceData) (grade : ClassGrade)
    (date : string) : DailyAttendanceRecord :=
  default zero_record (lookup_record data (grade_value grade) date).

(** [handleBulkEditClick] *)
Definition handleBulkEditClick (st : AppState) : AppState :=
  let initialBulkEditState : EditBuffer :=
    foldl (fun acc grade =>
             <[grade_value grade :=
                 currentDailyRecord (classAttendanceData st) grade (selectedDate st)]> acc)
          ∅ CLASS_GRADES in
  mkState (classAttendanceData st) (selectedDate st) initialBulkEditState true.

(** The loop of [handleSaveAllClick]: [editingDailyAttendance] and
    [selectedDate] are the values the handler closed over, which the
    updates queued by the loop do not change. *)
Definition save_loop (editing : EditBuffer) (date : string)
    (grades : list ClassGrade) (st : AppState) : AppState :=
  foldl (fun acc grade =>
           match editing !! grade_value grade with
           | Some editedRecord =>
               handleUpdateDailyClassAttendance grade date
                 (present editedRecord) (absent editedRecord) acc
           | None => acc
           end)
        st grades.

(** [handleSaveAllClick] *)
Definition handleSaveAllClick (st : AppState) : AppState :=
  let st' := save_loop (editingDailyAttendance st) (selectedDate st) CLASS_GRADES st in
  mkState (classAttendanceData st') (selectedDate st') ∅ false.

(** [handleCancelBulkEditClick] *)
Definition handleCancelBulkEditClick (st : AppState) : AppState :=
  mkState (classAttendanceData st) (selectedDate st) ∅ false.

(** The value an input hands to [handleEditInputChange]:
    [parseInt(e.target.value, 10) || 0], where [None] stands for a text
    [parseInt] maps to NaN. *)
Definition input_value (parsed : option Z) : Z := default 0 parsed.

(** The [min] and [max] attributes of the two number inputs of a row. *)
Definition input_min : Z := 0.
Definition input_max (grade : ClassGrade) : Z := CLASS_STRENGTHS grade.

(** User gestures that change the state. *)
Inductive Action : Type :=
  | PreviousDay
  | NextDay
  | BulkEditClick
  | EditInputChange (grade : ClassGrade) (field : Field) (value : Z)
  | SaveAllClick
  | CancelBulkEditClick.

(** Which controls the component renders: the navigation buttons always,
    "Bulk Edit" outside bulk mode, "Save All", "Cancel" and the row inputs
    in bulk mode. *)
Definition rendered (st : AppState) (a : Action) : bool :=
  match a with
  | PreviousDay | NextDay => true
  | BulkEditClick => negb (isBulkEditing st)
  | EditInputChange _ _ _ | SaveAllClick | CancelBulkEditClick => isBulkEditing st
  end.

Definition handle (H : Host) (a : Action) (st : AppState) : AppState :=
  match a with
  | PreviousDay => goToPreviousDay H st
  | NextDay => goToNextDay H st
  | BulkEditClick => handleBulkEditClick st
  | EditInputChange grade field value => handleEditInputChange grade field value st
  | SaveAllClick => handleSaveAllClick st
  | CancelBulkEditClick => handleCancelBulkEditClick st
  end.

(** States the component can be in: the initial one, and any state reached
    by a gesture on a rendered control. *)
Inductive reachable (H : Host) : AppState -> Prop :=
  | reachable_initial stored : reachable H (initial_state H stored)
  | reachable_step st a :
      reachable H st -> rendered st a = true -> reachable H (handle H a st).

(** A run of field edits, oldest first. *)
Definition apply_edits (edits : list (ClassGrade * Field * Z)) (st : AppState) : AppState :=
  foldl (fun acc e => handleEditInputChange e.1.1 e.1.2 e.2 acc) st edits.

(** ** App.tsx: the CSV exporter *)

(** The [Set] filled by the first loop of both exporters: the date keys of
    every grade of [CLASS_GRADES] that is a key of the store. *)
Definition allDates (data : ClassAttendanceData) : gset string :=
  foldl (fun acc grade =>
           match data !! grade_value grade with
           | Some dates => acc ∪ dom dates
           | None => acc
           end)
        ∅ CLASS_GRADES.

(** [Array.from(allDates).sort()]: the default sort orders strings by
    their code units.  The members of a set are distinct, so the result
    does not depend on the order in which the set lists them. *)
Definition sortedDates (data : ClassAttendanceData) : list string :=
  merge_sort String.le (elements (allDates data)).

(** *** Reads that reach [Object.prototype]

    A date map is a plain object: reading a key it does not hold itself
    goes on to [Object.prototype], whose members are found under these
    names (the properties of the language's [Object.prototype], the legacy
    accessors included). *)
Definition Object_prototype_keys : list string :=
  [ "constructor"; "hasOwnProperty"; "isPrototypeOf"; "propertyIsEnumerable";
    "toLocaleString"; "toString"; "valueOf"; "__proto__";
    "__defineGetter__"; "__defineSetter__"; "__lookupGetter__"; "__lookupSetter__" ].

(** What [classAttendanceData[grade]?.[date]] evaluates to: a record the
    date map holds itself; a member of [Object.prototype], which is truthy
    and has neither [present] nor [absent]; or [undefined]. *)
Inductive DailyRead : Type :=
  | OwnRecord (dailyRecord : DailyAttendanceRecord)
  | InheritedMember
  | NotFound.

Definition read_daily (data : ClassAttendanceData) (grade : ClassGrade) (date : string)
  : DailyRead :=
  match data !! grade_value grade with
  | None => NotFound
  | Some dates =>
      match dates !! date with
      | Some dailyRecord => OwnRecord dailyRecord
      | None => if decide (date ∈ Object_prototype_keys) then InheritedMember else NotFound
      end
  end.

(** No date the exporters collect is the name of a member of
    [Object.prototype]: on such a store every read the exporters make is a
    read among the store's own keys, which is how the exporters below make
    it.  Every store whose dates are ISO dates is such a store. *)
Definition plain_dates (data : ClassAttendanceData) : Prop :=
  ∀ date, date ∈ allDates data → date ∉ Object_prototype_keys.

Definition csv_prefix : string := "data:text/csv;charset=utf-8,".

Definition csv_header : string :=
  "Date,Class Grade,Total Strength,Present,Absent,Present Percentage,Absent Percentage".

(** The template literal appended for one record. *)
Definition csv_line (H : Host) (date : string) (grade : ClassGrade)
    (dailyRecord : DailyAttendanceRecord) : string :=
  date ++ "," ++ grade_value grade ++ "," ++ digits_of_Z (CLASS_STRENGTHS grade)
  ++ "," ++ count_toString H (present dailyRecord)
  ++ "," ++ count_toString H (absent dailyRecord)
  ++ "," ++ toFixed1 H (dailyPresentPercentage dailyRecord) ++ "%,"
  ++ toFixed1 H (dailyAbsentPercentage dailyRecord) ++ "%" ++ LF.

(** [exportToCsv]: the value of [csvContent] when the loops are over. *)
Definition exportToCsv (H : Host) (data : ClassAttendanceData) : string :=
  foldl (fun csvContent date =>
           foldl (fun csvContent grade =>
                    match lookup_record data (grade_value grade) date with
                    | Some dailyRecord => csvContent ++ csv_line H date grade dailyRecord
                    | None => csvContent
                    end)
                 csvContent CLASS_GRADES)
        (csv_prefix ++ csv_header ++ LF) (sortedDates data).

(** The line appended when the read finds a member of [Object.prototype]:
    its [present] and [absent] are [undefined], printed as such; their sum
    is NaN, which is not greater than zero, so both percentages are 0. *)
Definition csv_line_inherited (H : Host) (date : string) (grade : ClassGrade) : string :=
  let undefined_number : number := S754_nan in
  let totalRecorded := num_add undefined_number undefined_number in
  date ++ "," ++ grade_value grade ++ "," ++ digits_of_Z (CLASS_STRENGTHS grade)
  ++ "," ++ "undefined" ++ "," ++ "undefined"
  ++ "," ++ toFixed1 H (percentage undefined_number totalRecorded) ++ "%,"
  ++ toFixed1 H (percentage undefined_number totalRecorded) ++ "%" ++ LF.

(** [exportToCsv] on any store, with the reads that reach
    [Object.prototype]: the value of [csvContent] when the loops are
    over.  On the stores of [plain_dates] it is [exportToCsv]. *)
Definition exportToCsv_with_prototype (H : Host) (data : ClassAttendanceData) : string :=
  foldl (fun csvContent date =>
           foldl (fun csvContent grade =>
                    match read_daily data grade date with
                    | OwnRecord dailyRecord =>
                        csvContent ++ csv_line H date grade dailyRecord
                    | InheritedMember => csvContent ++ csv_line_inherited H date grade
                    | NotFound => csvContent
                    end)
                 csvContent CLASS_GRADES)
        (csv_prefix ++ csv_header ++ LF) (sortedDates data).

(** The records the nested loops of the exporters visit, in order. *)
Definition rows_of_date (data : ClassAttendanceData) (date : string)
  : list (string * ClassGrade * DailyAttendanceRecord) :=
  flat_map (fun grade =>
              match lookup_record data (grade_value grade) date with
              | Some dailyRecord => [(date, grade, dailyRecord)]
              | None => []
              end) CLASS_GRADES.

Definition export_rows (data : ClassAttendanceData)
  : list (string * ClassGrade * DailyAttendanceRecord) :=
  flat_map (rows_of_date data) (sortedDates data).

(** Position of a grade in [CLASS_GRADES]. *)
Definition grade_index (g : ClassGrade) : nat :=
  match g with
  | SIXTH => 0
  | SEVENTH => 1
  | EIGHTH => 2
  | NINTH => 3
  | TENTH => 4
  end.

(** Strict order of the export: by date string, then by grade position. *)
Definition row_before (r1 r2 : string * ClassGrade * DailyAttendanceRecord) : Prop :=
  let '(d1, g1, _) := r1 in
  let '(d2, g2, _) := r2 in
  (String.le d1 d2 ∧ d1 ≠ d2) ∨ (d1 = d2 ∧ (grade_index g1 < grade_index g2)%nat).

(** [if (dailyRecord)]: a record and a member of [Object.prototype] are
    objects, hence truthy; [undefined] is not. *)
Definition truthy (read : DailyRead) : bool :=
  match read with
  | NotFound => false
  | _ => true
  end.

(** What the nested loops of [exportToCsv] write a line for, in order:
    for every collected date and every grade, the value read when it is
    truthy. *)
Definition visited_rows_of_date (data : ClassAttendanceData) (date : string)
  : list (string * ClassGrade * DailyRead) :=
  flat_map (fun grade =>
              let dailyRecord := read_daily data grade date in
              if truthy dailyRecord then [(date, grade, dailyRecord)] else [])
           CLASS_GRADES.

Definition visited_rows (data : ClassAttendanceData)
  : list (string * ClassGrade * DailyRead) :=
  flat_map (visited_rows_of_date data) (sortedDates data).

(** The line appended for a visited row. *)
Definition csv_line_of_read (H : Host) (row : string * ClassGrade * DailyRead) : string :=
  match row.2 with
  | OwnRecord dailyRecord => csv_line H row.1.1 row.1.2 dailyRecord
  | InheritedMember => csv_line_inherited H row.1.1 row.1.2
  | NotFound => ""
  end.

(** Strict order of the visited rows: by date string, then by grade
    position. *)
Definition visit_before (r1 r2 : string * ClassGrade * DailyRead) : Prop :=
  let '(d1, g1, _) := r1 in
  let '(d2, g2, _) := r2 in
  (String.le d1 d2 ∧ d1 ≠ d2) ∨ (d1 = d2 ∧ (grade_index g1 < grade_index g2)%nat).

(** A record of the store as a visited row. *)
Definition own_row (row : string * ClassGrade * DailyAttendanceRecord)
  : string * ClassGrade * DailyRead :=
  (row.1.1, row.1.2, OwnRecord row.2).

(** The file name given to the download link. *)
Definition csv_filename (H : Host) : string :=
  "school_attendance_data_" ++ today H ++ ".csv".

(** What the browser saves for the data URI of the link: the text after
    the media-type prefix ([encodeURI] is undone when the URI is read). *)
Definition csv_document (H : Host) (data : ClassAttendanceData) : string :=
  let csvContent := exportToCsv H data in
  substring (String.length csv_prefix)
            (String.length csvContent - String.length csv_prefix) csvContent.

(** The lines of a text, each one ended by a line feed. *)
Fixpoint lines_from (cur : string) (s : string) : list string :=
  match s with
  | EmptyString => if decide (cur = "") then [] else [cur]
  | String c rest =>
      if decide (c = ascii_of_nat 10) then cur :: lines_from "" rest
      else lines_from (cur ++ String c "") rest
  end.

Definition lines (s : string) : list string := lines_from "" s.

(** ** App.tsx: the PDF exporter *)

(** The calls made on the jsPDF document. *)
Inductive PdfOp : Type :=
  | SetFont (family style : string)
  | SetFontSize (size : Z)
  | Text (text : string) (x y : number) (centered : bool)
  | SetFillColor (r g b : Z)
  | SetTextColor (r g b : Z)
  | SetDrawColor (c : Z)
  | RectFilled (x y w h : number)
  | Rect (x y w h : number)
  | AddPage
  | Save (filename : string).

Definition PDF_GRADE_ROW_COLORS_RGB : list (Z * Z * Z) :=
  [ (219, 234, 254); (209, 250, 229); (253, 230, 138); (224, 231, 255); (255, 228, 230) ].

Definition margin : number := number_of_Z 14.
Definition rowHeight : number := number_of_Z 7.
Definition headerHeight : number := number_of_Z 7.
Definition textIndent : number := number_of_Z 1.

Definition dailyHeaders : list string :=
  ["Class Grade"; "Strength"; "Present"; "Absent"; "Present %"; "Absent %"].

Definition dailyColWidths : list number :=
  number_of_Z <$> [30; 20; 20; 20; 25; 25].

(** [dailyColWidths.reduce((a, b) => a + b, 0)] *)
Definition tableWidthDaily : number :=
  foldl num_add (number_of_Z 0) dailyColWidths.

Definition startXDaily (H : Host) : number :=
  num_div (num_sub (pageWidth H) tableWidthDaily) (number_of_Z 2).

(** [10 + 7 + 7 + (CLASS_GRADES.length * rowHeight) + 5] *)
Definition minSpaceForNextDate : number :=
  num_add (num_add (num_add (num_add (number_of_Z 10) (number_of_Z 7)) (number_of_Z 7))
                   (num_mul (number_of_Z (Z.of_nat (length CLASS_GRADES))) rowHeight))
          (number_of_Z 5).

(** The loop that writes the cells of one table row: each text at the
    running offset, which then advances by the width of the column (no
    advance for a cell without a column width). *)
Fixpoint draw_cells (cells : list string) (widths : list number)
    (xOffsetDaily y : number) : list PdfOp :=
  match cells with
  | [] => []
  | cell :: cells' =>
      Text cell xOffsetDaily (num_add y (number_of_Z 5)) false ::
      match widths with
      | w :: widths' => draw_cells cells' widths' (num_add xOffsetDaily w) y
      | [] => draw_cells cells' [] S754_nan y
      end
  end.

(** The header band of a daily table, drawn at height [y]. *)
Definition draw_table_header (H : Host) (y : number) : list PdfOp :=
  [ SetFontSize 10; SetFont "helvetica" "bold";
    SetFillColor 52 152 219; SetTextColor 255 255 255;
    RectFilled (startXDaily H) y tableWidthDaily headerHeight;
    SetDrawColor 0;
    Rect (startXDaily H) y tableWidthDaily headerHeight ]
  ++ draw_cells dailyHeaders dailyColWidths (num_add (startXDaily H) textIndent) y.

(** The title repeated at the top of a new page. *)
Definition draw_continued (y : number) : list PdfOp :=
  [ AddPage; SetFontSize 14; SetFont "helvetica" "bold";
    Text "Daily Attendance Records (Continued)" margin y false ].

Definition rowData (H : Host) (grade : ClassGrade) (dailyRecord : DailyAttendanceRecord)
  : list string :=
  [ grade_value grade;
    digits_of_Z (CLASS_STRENGTHS grade);
    count_toString H (present dailyRecord);
    count_toString H (absent dailyRecord);
    toFixed1 H (dailyPresentPercentage dailyRecord) ++ "%";
    toFixed1 H (dailyAbsentPercentage dailyRecord) ++ "%" ].

(** The tinted band and the cells of one grade row, drawn at height [y]. *)
Definition draw_row (H : Host) (gradeIndex : nat) (grade : ClassGrade)
    (dailyRecord : DailyAttendanceRecord) (y : number) : list PdfOp :=
  let rgb := default (0, 0, 0)
               (PDF_GRADE_ROW_COLORS_RGB !!
                  (gradeIndex mod length PDF_GRADE_ROW_COLORS_RGB)%nat) in
  [ SetFillColor rgb.1.1 rgb.1.2 rgb.2; SetTextColor 0 0 0;
    RectFilled (startXDaily H) y tableWidthDaily rowHeight;
    SetDrawColor 0;
    Rect (startXDaily H) y tableWidthDaily rowHeight ]
  ++ draw_cells (rowData H grade dailyRecord) dailyColWidths
                (num_add (startXDaily H) textIndent) y.

(** The document under construction: the calls made so far and the
    local variable [y]. *)
Record PdfState : Type := mkPdf {
  pdf_ops : list PdfOp;
  pdf_y : number
}.

Definition emit (ops : list PdfOp) (s : PdfState) : PdfState :=
  mkPdf (pdf_ops s ++ ops) (pdf_y s).

Definition set_y (y : number) (s : PdfState) : PdfState :=
  mkPdf (pdf_ops s) y.

Definition advance_y (dy : number) (s : PdfState) : PdfState :=
  set_y (num_add (pdf_y s) dy) s.

(** The page break taken before a row that would overflow the page. *)
Definition row_page_break (H : Host) (s : PdfState) : PdfState :=
  if num_gt (num_add (pdf_y s) rowHeight) (num_sub (pageHeight H) margin)
  then
    let s := set_y (number_of_Z 20) s in
    let s := emit (draw_continued (pdf_y s)) s in
    let s := advance_y (number_of_Z 10) s in
    let s := emit (draw_table_header H (pdf_y s)) s in
    let s := advance_y headerHeight s in
    emit [SetFont "helvetica" "normal"] s
  else s.

(** The body of the inner [CLASS_GRADES.forEach((grade, gradeIndex) => ...)]. *)
Definition pdf_grade_step (H : Host) (data : ClassAttendanceData) (date : string)
    (s : PdfState) (ig : nat * ClassGrade) : PdfState :=
  match lookup_record data (grade_value ig.2) date with
  | Some dailyRecord =>
      let s := row_page_break H s in
      let s := emit (draw_row H ig.1 ig.2 dailyRecord (pdf_y s)) s in
      advance_y rowHeight s
  | None => s
  end.

(** The body of [sortedDates.forEach(date => ...)]. *)
Definition pdf_date_step (H : Host) (data : ClassAttendanceData)
    (s : PdfState) (date : string) : PdfState :=
  let s :=
    if num_gt (num_add (pdf_y s) minSpaceForNextDate) (num_sub (pageHeight H) margin)
    then
      let s := set_y (number_of_Z 20) s in
      let s := emit (draw_continued (pdf_y s)) s in
      advance_y (number_of_Z 10) s
    else s in
  let s := emit [ SetFontSize 12; SetFont "helvetica" "bold";
                  Text ("Date: " ++ date) margin (pdf_y s) false ] s in
  let s := advance_y (number_of_Z 7) s in
  let s := emit (draw_table_header H (pdf_y s)) s in
  let s := advance_y headerHeight s in
  let s := emit [SetFont "helvetica" "normal"] s in
  let s := foldl (pdf_grade_step H data date) s (imap (fun i g => (i, g)) CLASS_GRADES) in
  advance_y (number_of_Z 5) s.

Definition pdf_filename (H : Host) : string :=
  "school_attendance_summary_" ++ today H ++ ".pdf".

(** The title block of the first page and the section heading. *)
Definition pdf_preamble (H : Host) : PdfState :=
  let half := num_div (pageWidth H) (number_of_Z 2) in
  let y := number_of_Z 45 in
  mkPdf
    [ SetFont "helvetica" "bold"; SetFontSize 18;
      Text "SR PRIME SCHOOL ATTENDANCE" half (number_of_Z 20) true;
      SetFontSize 12; SetFont "helvetica" "normal";
      Text "GOPALAPURAM, KHAMMAM" half (number_of_Z 28) true;
      SetFontSize 14; SetFont "helvetica" "bold";
      Text "Daily Attendance Records" margin y false ]
    (num_add y (number_of_Z 10)).

(** [exportToPdf]: every call made on the document, in order. *)
Definition exportToPdf (H : Host) (data : ClassAttendanceData) : list PdfOp :=
  let s := foldl (pdf_date_step H data) (pdf_preamble H) (sortedDates data) in
  pdf_ops s ++ [Save (pdf_filename H)].

(** A host on which the model can be run: a storage whose text never
    parses, an A4 page of 210 by 297, dates that stay put, and a fixed text
    for the numbers [toFixed] hands to [Number::toString]. *)
Definition sample_host : Host :=
  mkHost (fun _ => None) (fun _ => "1e+21") (fun _ s => s) "2024-06-01"
         (number_of_Z 210) (number_of_Z 297).

(** A run of gestures, oldest first. *)
Definition run (H : Host) (actions : list Action) (st : AppState) : AppState :=
  foldl (fun acc a => handle H a acc) st actions.

(** [l.join("")] *)
Definition concat_strings (l : list string) : string :=
  foldr String.append "" l.

(** Every grade of the enumeration is a key of the store. *)
Definition all_grades_present (data : ClassAttendanceData) : Prop :=
  ∀ g : ClassGrade, is_Some (data !! grade_value g).

(** [{ ...currentEdit, [field]: value }] folded over the edits of one grade. *)
Definition edited_record (edits : list (ClassGrade * Field * Z))
    (seed : DailyAttendanceRecord) : DailyAttendanceRecord :=
  foldl (fun r e => set_field e.1.2 e.2 r) seed edits.

(** The line appended for a visited record. *)
Definition csv_line_of_row (H : Host)
    (row : string * ClassGrade * DailyAttendanceRecord) : string :=
  csv_line H row.1.1 row.1.2 row.2.

(** The (date, grade) pair a visited record belongs to. *)
Definition row_key (row : string * ClassGrade * DailyAttendanceRecord)
  : string * ClassGrade := row.1.

#[global] Instance ClassGrade_eq_dec : EqDecision ClassGrade.
Proof. solve_decision. Defined.

(** The record is one of the visited ones, and the CSV text is the
    header and the lines of the records visited before it, then its line,
    then the lines of the records visited after it. *)
Definition csv_has_line (H : Host) (data : ClassAttendanceData)
    (date : string) (grade : ClassGrade) (r : DailyAttendanceRecord) : Prop :=
  ∃ rows1 rows2,
    export_rows data = (rows1 ++ (date, grade, r) :: rows2)%list
    ∧ exportToCsv H data
      = ((csv_prefix ++ csv_header ++ LF)
         ++ concat_strings (csv_line_of_row H <$> rows1))
        ++ csv_line H date grade r
        ++ concat_strings (csv_line_of_row H <$> rows2).

(** The exporter only ever adds calls to the document. *)
Definition extends (s s' : PdfState) : Prop :=
  ∃ more, pdf_ops s' = (pdf_ops s ++ more)%list.

(** The calls made since [s0] include, in one run, the calls of [block]
    at some height [y]. *)
Definition has_run_from (s0 : PdfState) (block : number → list PdfOp)
    (s : PdfState) : Prop :=
  ∃ y before after, pdf_ops s = (pdf_ops s0 ++ before ++ block y ++ after)%list.

(** The calls made on the PDF document start with the calls made up to
    the end of the section of [date], and within that section, which opens
    with the heading of the date, the row of the record is drawn in one
    run at some height [y]. *)
Definition pdf_has_row (H : Host) (data : ClassAttendanceData) (date : string)
    (grade : ClassGrade) (r : DailyAttendanceRecord) : Prop :=
  ∃ s rest,
    has_run_from s (draw_row H (grade_index grade) grade r) (pdf_date_step H data s date)
    ∧ exportToPdf H data = (pdf_ops (pdf_date_step H data s date) ++ rest)%list.

(** ** ISO dates

    The date strings of the program come from
    [toISOString().split('T')[0]], which for the years 0 to 9999 is the
    year on four digits, the month and the day on two, with dashes. *)
Definition digit (k : nat) : ascii := ascii_of_nat (48 + k).

(** The characters of the digits [ds], followed by [rest]. *)
Fixpoint digit_string (ds : list nat) (rest : string) : string :=
  match ds with
  | [] => rest
  | d :: ds' => String (digit d) (digit_string ds' rest)
  end.

Definition iso_date (y m d : nat) : string :=
  digit_string [y / 1000; (y / 100) mod 10; (y / 10) mod 10; y mod 10]%nat
    ("-" ++ digit_string [m / 10; m mod 10]%nat
       ("-" ++ digit_string [d / 10; d mod 10]%nat "")).

(** Calendar order on (year, month, day). *)
Definition date_lt (a b : nat * nat * nat) : Prop :=
  let '(y1, m1, d1) := a in
  let '(y2, m2, d2) := b in
  (y1 < y2 ∨ (y1 = y2 ∧ (m1 < m2 ∨ (m1 = m2 ∧ d1 < d2))))%nat.

(** [record[field]] *)
Definition get_field (field : Field) (r : DailyAttendanceRecord) : Z :=
  match field with
  | FieldPresent => present r
  | FieldAbsent => absent r
  end.

(** The keys of the edit buffer in bulk mode: the values of the five grades. *)
Definition grade_keys : gset string := list_to_set (grade_value <$> CLASS_GRADES).

(** ** App.tsx: the attendance table

    What the table of the selected date shows: for each grade a row with
    the two counts, as inputs in bulk mode and as text outside it, and the
    two percentages; below the rows, the totals. *)

(** [editingDailyAttendance[grade] || currentDailyRecord]: a buffered pair
    is an object, so it is used whenever there is one. *)
Definition editableRecord (st : AppState) (grade : ClassGrade) : DailyAttendanceRecord :=
  default (currentDailyRecord (classAttendanceData st) grade (selectedDate st))
          (editingDailyAttendance st !! grade_value grade).

(** A count cell of a row: a number input with its [value], [min] and
    [max], or a span with the count as text. *)
Inductive CountCell : Type :=
  | InputCell (value min max : Z)
  | SpanCell (value : Z).

(** The six cells of a row. *)
Record TableRow : Type := mkRow {
  row_grade : string;
  row_strength : Z;
  row_present : CountCell;
  row_absent : CountCell;
  row_presentPercentage : string;
  row_absentPercentage : string
}.

(** The body of [CLASS_GRADES.map((grade, index) => ...)]: the percentages
    are those of [currentDailyRecord], also while the row is edited. *)
Definition table_row (H : Host) (st : AppState) (grade : ClassGrade) : TableRow :=
  let currentDailyRecord :=
    currentDailyRecord (classAttendanceData st) grade (selectedDate st) in
  let isEditingRow := isBulkEditing st in
  let editableRecord := editableRecord st grade in
  mkRow (grade_value grade)
        (CLASS_STRENGTHS grade)
        (if isEditingRow
         then InputCell (present editableRecord) input_min (input_max grade)
         else SpanCell (present currentDailyRecord))
        (if isEditingRow
         then InputCell (absent editableRecord) input_min (input_max grade)
         else SpanCell (absent currentDailyRecord))
        (toFixed1 H (dailyPresentPercentage currentDailyRecord) ++ "%")
        (toFixed1 H (dailyAbsentPercentage currentDailyRecord) ++ "%").

Definition table_body (H : Host) (st : AppState) : list TableRow :=
  table_row H st <$> CLASS_GRADES.

(** The count cell of a row that belongs to a field. *)
Definition row_cell (field : Field) (row : TableRow) : CountCell :=
  match field with
  | FieldPresent => row_present row
  | FieldAbsent => row_absent row
  end.

(** [CLASS_GRADES.reduce((sum, grade) => sum + CLASS_STRENGTHS[grade], 0)] *)
Definition totalStrength : number :=
  foldl (fun sum grade => num_add sum (number_of_Z (CLASS_STRENGTHS grade)))
        (number_of_Z 0) CLASS_GRADES.

(** [CLASS_GRADES.reduce((sum, grade) =>
       sum + (classAttendanceData[grade]?.[selectedDate]?.present || 0), 0)],
    and the same with [absent]. *)
Definition total_of (field : Field) (data : ClassAttendanceData) (date : string) : number :=
  foldl (fun sum grade =>
           num_add sum
             (number_of_Z
                (default 0 (get_field field <$> lookup_record data (grade_value grade) date))))
        (number_of_Z 0) CLASS_GRADES.

(** [total > 0 ? ((count / total) * 100).toFixed(1) + '%' : '0.0%'] *)
Definition total_percentage (H : Host) (count total : number) : string :=
  if num_gt total (number_of_Z 0)
  then toFixed1 H (num_mul (num_div count total) (number_of_Z 100)) ++ "%"
  else "0.0%".

(** The five cells of the footer row after its label. *)
Record TableFooter : Type := mkFooter {
  foot_strength : number;
  foot_present : number;
  foot_absent : number;
  foot_presentPercentage : string;
  foot_absentPercentage : string
}.

Definition table_footer (H : Host) (st : AppState) : TableFooter :=
  let totalPresent := total_of FieldPresent (classAttendanceData st) (selectedDate st) in
  let totalAbsent := total_of FieldAbsent (classAttendanceData st) (selectedDate st) in
  let total := num_add totalPresent totalAbsent in
  mkFooter totalStrength totalPresent totalAbsent
           (total_percentage H totalPresent total)
           (total_percentage H totalAbsent total).


(** * Properties *)

(** ** The store update *)

Lemma grade_value_inj g1 g2 : grade_value g1 = grade_value g2 → g1 = g2.
Proof. destruct g1, g2; simpl; intros H; first [reflexivity | discriminate H]. Qed.

Lemma lookup_record_update_eq data g d p a :
  lookup_record (updateDailyClassAttendance g d p a data) (grade_value g) d
  = Some (mkRecord p a).
Proof.
  unfold lookup_record, updateDailyClassAttendance.
  rewrite lookup_insert_eq. apply lookup_insert_eq.
Qed.

Lemma lookup_record_update_other_date data g d p a k d' :
  d' ≠ d →
  lookup_record (updateDailyClassAttendance g d p a data) k d'
  = lookup_record data k d'.
Proof.
  intros Hd. unfold lookup_record, updateDailyClassAttendance.
  destruct (decide (grade_value g = k)) as [<- | Hk].
  - rewrite lookup_insert_eq, lookup_insert_ne by congruence.
    destruct (data !! grade_value g); simpl; [reflexivity | apply lookup_empty].
  - rewrite lookup_insert_ne by assumption. reflexivity.
Qed.

Lemma update_other_grade data g d p a k :
  k ≠ grade_value g →
  updateDailyClassAttendance g d p a data !! k = data !! k.
Proof.
  intros Hk. unfold updateDailyClassAttendance.
  apply lookup_insert_ne. congruence.
Qed.

Lemma lookup_record_update_other_grade data g d p a k d' :
  k ≠ grade_value g →
  lookup_record (updateDailyClassAttendance g d p a data) k d'
  = lookup_record data k d'.
Proof.
  intros Hk. unfold lookup_record. rewrite update_other_grade by assumption.
  reflexivity.
Qed.

Lemma lookup_record_update_ne data g d p a k d' :
  (k, d') ≠ (grade_value g, d) →
  lookup_record (updateDailyClassAttendance g d p a data) k d'
  = lookup_record data k d'.
Proof.
  intros Hne. destruct (decide (d' = d)) as [-> | Hd].
  - apply lookup_record_update_other_grade. congruence.
  - apply lookup_record_update_other_date. assumption.
Qed.

(** C1. Commit isolation: after [handleUpdateDailyClassAttendance g d p a]
    the store holds [{present: p, absent: a}] at [(g, d)]; every other
    (grade, date) entry reads as before, and the date map of every other
    grade key is the one of the prior store. *)
Theorem commit_isolation (st : AppState) (g : ClassGrade) (d : string) (p a : Z) :
  let data := classAttendanceData st in
  let data' := classAttendanceData (handleUpdateDailyClassAttendance g d p a st) in
  lookup_record data' (grade_value g) d = Some (mkRecord p a)
  ∧ (∀ k d', (k, d') ≠ (grade_value g, d) →
       lookup_record data' k d' = lookup_record data k d')
  ∧ (∀ k, k ≠ grade_value g → data' !! k = data !! k).
Proof.
  simpl. split; [apply lookup_record_update_eq | split].
  - intros k d' Hne. apply lookup_record_update_ne. assumption.
  - intros k Hk. apply update_other_grade. assumption.
Qed.

Lemma commit_isolation_witness :
  let st := mkState (updateDailyClassAttendance SEVENTH "2024-06-01" 40 8
                       INITIAL_CLASS_ATTENDANCE_DATA) "2024-06-01" ∅ false in
  let st' := handleUpdateDailyClassAttendance SIXTH "2024-06-01" 15 4 st in
  lookup_record (classAttendanceData st') "7th Grade" "2024-06-01"
  = lookup_record (classAttendanceData st) "7th Grade" "2024-06-01".
Proof.
  intros st st'.
  apply (proj1 (proj2 (commit_isolation st SIXTH "2024-06-01" 15 4))).
  discriminate.
Defined.

(** ** Grade keys *)

Lemma initial_all_grades : all_grades_present INITIAL_CLASS_ATTENDANCE_DATA.
Proof. intros g. destruct g; vm_compute; eexists; reflexivity. Qed.

Lemma initial_key k dates :
  INITIAL_CLASS_ATTENDANCE_DATA !! k = Some dates →
  dates = ∅ ∧ ∃ g, k = grade_value g.
Proof.
  unfold INITIAL_CLASS_ATTENDANCE_DATA, CLASS_GRADES. cbn [foldl].
  rewrite !lookup_insert_Some, lookup_empty.
  intros Hk.
  repeat (destruct Hk as [[<- <-] | [_ Hk]];
          [split; [reflexivity | eexists; reflexivity] |]).
  discriminate Hk.
Qed.

Lemma initial_no_records k d : lookup_record INITIAL_CLASS_ATTENDANCE_DATA k d = None.
Proof.
  unfold lookup_record.
  destruct (INITIAL_CLASS_ATTENDANCE_DATA !! k) as [dates |] eqn:Hk; [| reflexivity].
  apply initial_key in Hk as [-> _]. apply lookup_empty.
Qed.

Lemma load_all_grades H stored : all_grades_present (load H stored).
Proof.
  intros g. unfold load.
  destruct stored as [| | storedData]; try apply initial_all_grades.
  destruct (decide (storedData = "")); [apply initial_all_grades |].
  destruct (JSON_parse H storedData) as [parsedData |]; [| apply initial_all_grades].
  apply lookup_union_is_Some. right. apply initial_all_grades.
Qed.

Lemma update_keeps_keys data g d p a k :
  is_Some (data !! k) →
  is_Some (updateDailyClassAttendance g d p a data !! k).
Proof.
  intros Hk. unfold updateDailyClassAttendance.
  destruct (decide (grade_value g = k)) as [<- | Hne].
  - rewrite lookup_insert_eq. eexists; reflexivity.
  - rewrite lookup_insert_ne by assumption. assumption.
Qed.

Lemma update_all_grades data g d p a :
  all_grades_present data →
  all_grades_present (updateDailyClassAttendance g d p a data).
Proof. intros Hall g'. apply update_keeps_keys, Hall. Qed.

(** The loop of [handleSaveAllClick], for any buffer and any list of grades. *)
Lemma save_loop_all_grades (buf : EditBuffer) date grades st :
  all_grades_present (classAttendanceData st) →
  all_grades_present (classAttendanceData (save_loop buf date grades st)).
Proof.
  revert st. induction grades as [| g grades IH]; intros st Hst.
  - exact Hst.
  - change (save_loop buf date (g :: grades) st)
      with (save_loop buf date grades
              match buf !! grade_value g with
              | Some r => handleUpdateDailyClassAttendance g date (present r) (absent r) st
              | None => st
              end).
    apply IH. destruct (buf !! grade_value g) as [r |]; [| exact Hst].
    apply update_all_grades. exact Hst.
Qed.

Lemma handle_all_grades H a st :
  all_grades_present (classAttendanceData st) →
  all_grades_present (classAttendanceData (handle H a st)).
Proof.
  intros Hst. destruct a; try exact Hst.
  exact (save_loop_all_grades (editingDailyAttendance st) (selectedDate st)
           CLASS_GRADES st Hst).
Qed.

(** C8. Every grade of the enumeration is a key of the store: in what
    [load] returns, whatever the storage held (nothing, a snapshot that
    lacks some grades, a text that does not parse, a read that throws);
    after a commit on a store that had them all; and so in every state the
    component can reach. *)
Theorem grades_always_present (H : Host) :
  (∀ stored, all_grades_present (load H stored))
  ∧ (∀ data g d p a, all_grades_present data →
       all_grades_present (updateDailyClassAttendance g d p a data))
  ∧ (∀ st, reachable H st → all_grades_present (classAttendanceData st)).
Proof.
  split; [apply load_all_grades | split].
  - intros data g d p a. apply update_all_grades.
  - intros st Hreach. induction Hreach as [stored | st a _ IH _].
    + simpl. apply load_all_grades.
    + apply handle_all_grades. assumption.
Qed.

Lemma grades_always_present_witness :
  let H := mkHost (fun _ => Some {[ "6th Grade" := {[ "2024-06-01" := mkRecord 15 4 ]} ]})
                  (fun _ => "") (fun _ s => s) "2024-06-02"
                  (number_of_Z 210) (number_of_Z 297) in
  reachable H (handle H SaveAllClick (handle H BulkEditClick (initial_state H (Item "{}"))))
  ∧ is_Some (classAttendanceData
               (handle H SaveAllClick (handle H BulkEditClick (initial_state H (Item "{}"))))
             !! "10th Grade").
Proof.
  intros H.
  assert (Hr : reachable H
                 (handle H SaveAllClick (handle H BulkEditClick (initial_state H (Item "{}"))))).
  { apply reachable_step; [apply reachable_step; [apply reachable_initial |] |];
      reflexivity. }
  split; [exact Hr |].
  exact (proj2 (proj2 (grades_always_present H)) _ Hr TENTH).
Defined.

(** ** Navigation *)

Lemma apply_edits_store edits st :
  classAttendanceData (apply_edits edits st) = classAttendanceData st
  ∧ selectedDate (apply_edits edits st) = selectedDate st
  ∧ isBulkEditing (apply_edits edits st) = isBulkEditing st.
Proof.
  revert st. induction edits as [| e edits IH]; intros st; simpl.
  - auto.
  - destruct (IH (handleEditInputChange e.1.1 e.1.2 e.2 st)) as (-> & -> & ->).
    simpl. auto.
Qed.

(** C9. Changing the day tears the edit session down without committing:
    from any state, and so from one with pending edits for a grade [G],
    [goToPreviousDay] and [goToNextDay] leave the store as it is (the entry
    of [G] on the original date included), empty the buffer and leave bulk
    mode.  The same holds for a session started by bulk entry or not and
    followed by any field edits: the store after navigating is the store
    the session started from. *)
Theorem navigation_discards_edits (H : Host) (st : AppState) (G : ClassGrade) :
  let discards (nav : AppState → AppState) :=
    classAttendanceData (nav st) = classAttendanceData st
    ∧ lookup_record (classAttendanceData (nav st)) (grade_value G) (selectedDate st)
      = lookup_record (classAttendanceData st) (grade_value G) (selectedDate st)
    ∧ editingDailyAttendance (nav st) = ∅
    ∧ isBulkEditing (nav st) = false
    ∧ (∀ edits,
         classAttendanceData (nav (apply_edits edits st)) = classAttendanceData st
         ∧ classAttendanceData (nav (apply_edits edits (handleBulkEditClick st)))
           = classAttendanceData st) in
  discards (goToPreviousDay H) ∧ discards (goToNextDay H).
Proof.
  simpl. repeat split;
    first [ apply (apply_edits_store _ st)
          | apply (apply_edits_store _ (handleBulkEditClick st)) ].
Qed.

(** ** The edit buffer *)

Lemma record_eta (r : DailyAttendanceRecord) : mkRecord (present r) (absent r) = r.
Proof. destruct r; reflexivity. Qed.

Lemma bulk_seed_lookup st g :
  editingDailyAttendance (handleBulkEditClick st) !! grade_value g
  = Some (currentDailyRecord (classAttendanceData st) g (selectedDate st)).
Proof.
  destruct g; unfold handleBulkEditClick; simpl;
    repeat (rewrite lookup_insert_ne by discriminate); apply lookup_insert_eq.
Qed.

Lemma edit_lookup_eq g f v st :
  editingDailyAttendance (handleEditInputChange g f v st) !! grade_value g
  = Some (set_field f v (default zero_record (editingDailyAttendance st !! grade_value g))).
Proof. unfold handleEditInputChange; simpl. apply lookup_insert_eq. Qed.

Lemma edit_lookup_ne g f v st k :
  k ≠ grade_value g →
  editingDailyAttendance (handleEditInputChange g f v st) !! k
  = editingDailyAttendance st !! k.
Proof.
  intros Hk. unfold handleEditInputChange; simpl.
  apply lookup_insert_ne. congruence.
Qed.

Lemma apply_edits_cons e edits st :
  apply_edits (e :: edits) st = apply_edits edits (handleEditInputChange e.1.1 e.1.2 e.2 st).
Proof. reflexivity. Qed.

(** Edits of grade [A] leave the pairs of the other grades alone. *)
Lemma apply_edits_other A edits st k :
  Forall (fun e => e.1.1 = A) edits →
  k ≠ grade_value A →
  editingDailyAttendance (apply_edits edits st) !! k = editingDailyAttendance st !! k.
Proof.
  intros Hall Hk. revert st.
  induction Hall as [| e edits He _ IH]; intros st; [reflexivity |].
  rewrite apply_edits_cons, IH. apply edit_lookup_ne. rewrite He. assumption.
Qed.

(** Edits of grade [A], on a buffer that has a pair for [A]. *)
Lemma apply_edits_same A edits st r :
  Forall (fun e => e.1.1 = A) edits →
  editingDailyAttendance st !! grade_value A = Some r →
  editingDailyAttendance (apply_edits edits st) !! grade_value A
  = Some (edited_record edits r).
Proof.
  intros Hall. revert st r.
  induction Hall as [| e edits He _ IH]; intros st r Hr; [exact Hr |].
  rewrite apply_edits_cons.
  change (edited_record (e :: edits) r) with (edited_record edits (set_field e.1.2 e.2 r)).
  apply IH. rewrite He, edit_lookup_eq, Hr. reflexivity.
Qed.

(** ** The save loop *)

Lemma save_loop_cons (buf : EditBuffer) date g grades st :
  save_loop buf date (g :: grades) st
  = save_loop buf date grades
      match buf !! grade_value g with
      | Some editedRecord =>
          handleUpdateDailyClassAttendance g date
            (present editedRecord) (absent editedRecord) st
      | None => st
      end.
Proof. reflexivity. Qed.

Lemma save_loop_miss (buf : EditBuffer) date grades st k d' :
  (∀ g, g ∈ grades → is_Some (buf !! grade_value g) → (k, d') ≠ (grade_value g, date)) →
  lookup_record (classAttendanceData (save_loop buf date grades st)) k d'
  = lookup_record (classAttendanceData st) k d'.
Proof.
  revert st. induction grades as [| g grades IH]; intros st Hmiss.
  - reflexivity.
  - rewrite save_loop_cons, IH.
    + destruct (buf !! grade_value g) as [r |] eqn:Hr; [| reflexivity].
      apply lookup_record_update_ne.
      apply Hmiss; [left | rewrite Hr; eexists; reflexivity].
    + intros g' Hin. apply Hmiss. right. assumption.
Qed.

Lemma save_loop_hit (buf : EditBuffer) date grades st g r :
  NoDup grades → g ∈ grades → buf !! grade_value g = Some r →
  lookup_record (classAttendanceData (save_loop buf date grades st)) (grade_value g) date
  = Some r.
Proof.
  intros Hnd. revert st.
  induction Hnd as [| g0 grades Hnotin Hnd IH]; intros st Hin Hr.
  - inversion Hin.
  - rewrite save_loop_cons. apply elem_of_cons in Hin as [-> | Hin].
    + rewrite Hr. rewrite (save_loop_miss buf date grades).
      * unfold handleUpdateDailyClassAttendance, classAttendanceData at 1.
        rewrite lookup_record_update_eq, record_eta. reflexivity.
      * intros g' Hin' _ Heq. injection Heq as Heq.
        apply grade_value_inj in Heq. subst g'. contradiction.
    + apply IH; assumption.
Qed.

Lemma CLASS_GRADES_NoDup : NoDup CLASS_GRADES.
Proof.
  unfold CLASS_GRADES.
  repeat (constructor;
          [rewrite ?elem_of_cons, elem_of_nil; intuition discriminate |]).
  constructor.
Qed.

Lemma CLASS_GRADES_complete g : g ∈ CLASS_GRADES.
Proof. destruct g; unfold CLASS_GRADES; rewrite !elem_of_cons; tauto. Qed.

Lemma save_all_store st :
  classAttendanceData (handleSaveAllClick st)
  = classAttendanceData
      (save_loop (editingDailyAttendance st) (selectedDate st) CLASS_GRADES st).
Proof. reflexivity. Qed.

(** What [handleSaveAllClick] leaves in the store, entry by entry. *)
Lemma save_all_lookup st g :
  lookup_record (classAttendanceData (handleSaveAllClick st)) (grade_value g) (selectedDate st)
  = match editingDailyAttendance st !! grade_value g with
    | Some r => Some r
    | None => lookup_record (classAttendanceData st) (grade_value g) (selectedDate st)
    end.
Proof.
  rewrite save_all_store.
  destruct (editingDailyAttendance st !! grade_value g) as [r |] eqn:Hr.
  - apply save_loop_hit; [apply CLASS_GRADES_NoDup | apply CLASS_GRADES_complete | exact Hr].
  - apply save_loop_miss. intros g' _ [r' Hr'] Heq. injection Heq as Heq.
    apply grade_value_inj in Heq. subst g'. congruence.
Qed.

Lemma save_all_other_date st k d' :
  d' ≠ selectedDate st →
  lookup_record (classAttendanceData (handleSaveAllClick st)) k d'
  = lookup_record (classAttendanceData st) k d'.
Proof.
  intros Hd. rewrite save_all_store.
  apply save_loop_miss. intros g _ _ Heq. injection Heq as _ Heq. contradiction.
Qed.

(** ** Bulk edit and save-all *)

Lemma session_date edits st :
  selectedDate (apply_edits edits (handleBulkEditClick st)) = selectedDate st.
Proof. apply (apply_edits_store edits (handleBulkEditClick st)). Qed.

Lemma session_store edits st :
  classAttendanceData (apply_edits edits (handleBulkEditClick st)) = classAttendanceData st.
Proof. apply (apply_edits_store edits (handleBulkEditClick st)). Qed.

(** The store entry of a grade after a bulk session is the pair the buffer
    holds for it. *)
Lemma session_save_lookup edits st g :
  lookup_record
    (classAttendanceData (handleSaveAllClick (apply_edits edits (handleBulkEditClick st))))
    (grade_value g) (selectedDate st)
  = match editingDailyAttendance (apply_edits edits (handleBulkEditClick st))
          !! grade_value g with
    | Some r => Some r
    | None => lookup_record (classAttendanceData st) (grade_value g) (selectedDate st)
    end.
Proof.
  pose proof (save_all_lookup (apply_edits edits (handleBulkEditClick st)) g) as Hs.
  rewrite session_date, session_store in Hs. exact Hs.
Qed.

(** C3. Bulk save with one grade edited: after bulk entry, any run of field
    edits that all touch grade [A], and save-all, the value of every grade
    other than [A] on the selected date is the value it had before, where
    the value of a grade is what the program reads for it,
    [classAttendanceData[grade]?.[selectedDate] || { present: 0, absent: 0 }]:
    a record that existed for such a grade is still that record, and a
    grade without one, which read zero and zero, now holds that pair.  The
    entry of [A] is the seeded pair with the edits applied, and no other
    date is touched. *)
Theorem bulk_save_one_grade (st : AppState) (A : ClassGrade)
    (edits : list (ClassGrade * Field * Z)) :
  Forall (fun e => e.1.1 = A) edits →
  let d := selectedDate st in
  let data := classAttendanceData st in
  let data' :=
    classAttendanceData (handleSaveAllClick (apply_edits edits (handleBulkEditClick st))) in
  (∀ g, g ≠ A → currentDailyRecord data' g d = currentDailyRecord data g d)
  ∧ (∀ g, g ≠ A →
       lookup_record data' (grade_value g) d = Some (currentDailyRecord data g d))
  ∧ (∀ g r, g ≠ A → lookup_record data (grade_value g) d = Some r →
       lookup_record data' (grade_value g) d = Some r)
  ∧ lookup_record data' (grade_value A) d
    = Some (edited_record edits (currentDailyRecord data A d))
  ∧ (∀ k d', d' ≠ d → lookup_record data' k d' = lookup_record data k d').
Proof.
  intros Hall d data data'.
  assert (Hother : ∀ g, g ≠ A →
            lookup_record data' (grade_value g) d = Some (currentDailyRecord data g d)).
  { intros g Hg. unfold data', d. rewrite session_save_lookup.
    rewrite (apply_edits_other A) by (try assumption; intros Heq;
                                      apply grade_value_inj in Heq; contradiction).
    rewrite bulk_seed_lookup. reflexivity. }
  split; [| split; [exact Hother | split; [| split]]].
  - intros g Hg. unfold currentDailyRecord at 1. rewrite Hother by assumption. reflexivity.
  - intros g r Hg Hr. rewrite Hother by assumption.
    unfold currentDailyRecord. fold d data. rewrite Hr. reflexivity.
  - unfold data', d. rewrite session_save_lookup.
    rewrite (apply_edits_same A edits _ _ Hall (bulk_seed_lookup st A)). reflexivity.
  - intros k d' Hd. unfold data'. rewrite save_all_other_date.
    + rewrite session_store. reflexivity.
    + rewrite session_date. exact Hd.
Qed.

Lemma bulk_save_one_grade_witness :
  let st := mkState (updateDailyClassAttendance SEVENTH "2024-06-01" 40 8
                       INITIAL_CLASS_ATTENDANCE_DATA) "2024-06-01" ∅ false in
  let edits := [(SIXTH, FieldPresent, 15); (SIXTH, FieldAbsent, 4)] in
  let data' :=
    classAttendanceData (handleSaveAllClick (apply_edits edits (handleBulkEditClick st))) in
  Forall (fun e => e.1.1 = SIXTH) edits
  ∧ lookup_record data' "6th Grade" "2024-06-01" = Some (mkRecord 15 4)
  ∧ lookup_record data' "7th Grade" "2024-06-01" = Some (mkRecord 40 8).
Proof.
  intros st edits data'.
  assert (Hall : Forall (fun e => e.1.1 = SIXTH) edits)
    by (repeat constructor).
  pose proof (bulk_save_one_grade st SIXTH edits Hall) as (_ & _ & Hkeep & HA & _).
  split; [exact Hall | split].
  - exact HA.
  - apply (Hkeep SEVENTH (mkRecord 40 8)); [discriminate | reflexivity].
Defined.

(** ** Field edits *)

Lemma apply_edits_untouched g edits st :
  Forall (fun e => e.1.1 ≠ g) edits →
  editingDailyAttendance (apply_edits edits st) !! grade_value g
  = editingDailyAttendance st !! grade_value g.
Proof.
  intros Hall. revert st.
  induction Hall as [| e edits He _ IH]; intros st; [reflexivity |].
  rewrite apply_edits_cons, IH. apply edit_lookup_ne.
  intros Heq. apply grade_value_inj in Heq. congruence.
Qed.

Lemma apply_edits_keeps_pair edits st k :
  is_Some (editingDailyAttendance st !! k) →
  is_Some (editingDailyAttendance (apply_edits edits st) !! k).
Proof.
  revert st. induction edits as [| e edits IH]; intros st Hst; [exact Hst |].
  rewrite apply_edits_cons. apply IH.
  destruct (decide (k = grade_value e.1.1)) as [-> | Hne].
  - rewrite edit_lookup_eq. eexists; reflexivity.
  - rewrite edit_lookup_ne by exact Hne. exact Hst.
Qed.

(** In bulk mode the buffer has a pair for every grade, in every state the
    component can reach. *)
Lemma bulk_buffer_complete H st :
  reachable H st → isBulkEditing st = true →
  ∀ g, is_Some (editingDailyAttendance st !! grade_value g).
Proof.
  induction 1 as [stored | st a Hreach IH Hrendered]; [discriminate |].
  destruct a; try discriminate; intros _ g.
  - rewrite bulk_seed_lookup. eexists; reflexivity.
  - apply (apply_edits_keeps_pair [(grade, field, value)] st), IH. exact Hrendered.
Qed.

Lemma apply_edits_snoc edits e st :
  apply_edits (edits ++ [e]) st
  = handleEditInputChange e.1.1 e.1.2 e.2 (apply_edits edits st).
Proof. unfold apply_edits. rewrite foldl_app. reflexivity. Qed.

(** Every state the component shows in bulk mode is inside an edit
    session: bulk entry from a reachable state outside bulk mode, followed
    by the field edits made since. *)
Lemma reachable_bulk_session H st :
  reachable H st → isBulkEditing st = true →
  ∃ st0 edits,
    reachable H st0 ∧ isBulkEditing st0 = false
    ∧ st = apply_edits edits (handleBulkEditClick st0).
Proof.
  induction 1 as [stored | st a Hreach IH Hrendered]; [discriminate |].
  destruct a; try discriminate.
  - intros _. exists st, []. cbn [rendered] in Hrendered.
    split; [exact Hreach | split; [| reflexivity]].
    destruct (isBulkEditing st); [discriminate Hrendered | reflexivity].
  - intros _. cbn [rendered] in Hrendered.
    destruct (IH Hrendered) as (st0 & edits & Hreach0 & Hidle0 & ->).
    exists st0, (edits ++ [(grade, field, value)])%list.
    split; [exact Hreach0 | split; [exact Hidle0 |]].
    cbn [handle]. rewrite apply_edits_snoc. reflexivity.
Qed.

(** Outside an edit session, where the buffer has no pair for the grade,
    [handleEditInputChange] puts zero in the field it was not given; the
    component shows no input in such a state. *)
Lemma edit_without_pair st g f v :
  editingDailyAttendance st !! grade_value g = None →
  editingDailyAttendance (handleEditInputChange g f v st) !! grade_value g
  = Some (set_field f v zero_record).
Proof. intros Hnone. rewrite edit_lookup_eq, Hnone. reflexivity. Qed.

(** C4. A field edit the component can receive (in a reachable state that
    shows the input) replaces only the edited field of the grade's buffered
    pair and leaves the pairs of the other grades alone.  The state is
    inside an edit session, begun by bulk entry and followed by the field
    edits made since, none of which changed the store or the selected date;
    when none of them touched the grade, that is on the first edit that
    touches the grade in the session, the untouched field is the store's
    value for the selected date (zero without a record).  The same holds
    for a session begun from any state. *)
Theorem first_edit_of_grade (H : Host) (st : AppState) (g : ClassGrade)
    (f : Field) (v : Z) :
  reachable H st → rendered st (EditInputChange g f v) = true →
  let buffer s := editingDailyAttendance s in
  let st' := handleEditInputChange g f v st in
  (∀ k, k ≠ grade_value g → buffer st' !! k = buffer st !! k)
  ∧ (∃ r, buffer st !! grade_value g = Some r
          ∧ buffer st' !! grade_value g = Some (set_field f v r))
  ∧ (∃ st0 edits,
       reachable H st0 ∧ isBulkEditing st0 = false
       ∧ st = apply_edits edits (handleBulkEditClick st0)
       ∧ classAttendanceData st = classAttendanceData st0
       ∧ selectedDate st = selectedDate st0
       ∧ (Forall (fun e => e.1.1 ≠ g) edits →
            buffer st' !! grade_value g
            = Some (set_field f v
                      (currentDailyRecord (classAttendanceData st) g (selectedDate st)))))
  ∧ (∀ st1 others, Forall (fun e => e.1.1 ≠ g) others →
       buffer (handleEditInputChange g f v (apply_edits others (handleBulkEditClick st1)))
         !! grade_value g
       = Some (set_field f v
                 (currentDailyRecord (classAttendanceData st1) g (selectedDate st1)))).
Proof.
  intros Hreach Hrendered. cbv zeta beta.
  assert (Hsession : ∀ st1 others, Forall (fun e => e.1.1 ≠ g) others →
    editingDailyAttendance
      (handleEditInputChange g f v (apply_edits others (handleBulkEditClick st1)))
      !! grade_value g
    = Some (set_field f v
              (currentDailyRecord (classAttendanceData st1) g (selectedDate st1)))).
  { intros st1 others Hall. rewrite edit_lookup_eq.
    rewrite (apply_edits_untouched g others _ Hall), bulk_seed_lookup. reflexivity. }
  split; [| split; [| split; [| exact Hsession]]].
  - intros k Hk. apply edit_lookup_ne. assumption.
  - destruct (bulk_buffer_complete H st Hreach Hrendered g) as [r Hr].
    exists r. split; [exact Hr |]. rewrite edit_lookup_eq, Hr. reflexivity.
  - destruct (reachable_bulk_session H st Hreach Hrendered)
      as (st0 & edits & Hreach0 & Hidle0 & ->).
    exists st0, edits.
    split; [exact Hreach0 | split; [exact Hidle0 | split; [reflexivity |]]].
    split; [apply session_store | split; [apply session_date |]].
    intros Hall. rewrite session_store, session_date. apply Hsession, Hall.
Qed.

Lemma first_edit_of_grade_witness :
  let snapshot : ClassAttendanceData :=
    {[ "6th Grade" := {[ "2024-06-01" := mkRecord 15 4 ]} ]} in
  let H := mkHost (fun _ => Some snapshot) (fun _ => "1e+21") (fun _ s => s)
                  "2024-06-01" (number_of_Z 210) (number_of_Z 297) in
  let st := handle H (EditInputChange TENTH FieldAbsent 2)
              (handle H BulkEditClick (initial_state H (Item "{}"))) in
  reachable H st ∧ rendered st (EditInputChange SIXTH FieldPresent 10) = true
  ∧ editingDailyAttendance (handleEditInputChange SIXTH FieldPresent 10 st) !! "6th Grade"
    = Some (mkRecord 10 4).
Proof.
  intros snapshot H st.
  assert (Hreach : reachable H st).
  { apply reachable_step; [apply reachable_step; [apply reachable_initial |] |];
      reflexivity. }
  assert (Hrendered : rendered st (EditInputChange SIXTH FieldPresent 10) = true)
    by reflexivity.
  split; [exact Hreach | split; [exact Hrendered |]].
  apply (proj2 (proj2 (proj2
           (first_edit_of_grade H st SIXTH FieldPresent 10 Hreach Hrendered)))
           (initial_state H (Item "{}")) [(TENTH, FieldAbsent, 2)]).
  repeat constructor. discriminate.
Defined.

(** C2, as the code has it. The edit and commit path stores what it is
    handed: a field edit buffers the value as it is, the commit writes the
    pair it is given, and save-all writes the buffered pair of every
    grade, so the entry committed for an edited grade is the buffered pair.
    Nothing on that path clamps; the interval from zero to the strength of
    the grade is what the two number inputs of the row declare as [min]
    and [max]. *)
Theorem commit_stores_buffered_values (st : AppState) (g : ClassGrade) :
  (∀ f v,
     get_field f <$> editingDailyAttendance (handleEditInputChange g f v st)
                       !! grade_value g
     = Some v)
  ∧ (∀ d p a,
       lookup_record (classAttendanceData (handleUpdateDailyClassAttendance g d p a st))
         (grade_value g) d
       = Some (mkRecord p a))
  ∧ (∀ r, editingDailyAttendance st !! grade_value g = Some r →
       lookup_record (classAttendanceData (handleSaveAllClick st))
         (grade_value g) (selectedDate st)
       = Some r)
  ∧ input_min = 0
  ∧ input_max g = CLASS_STRENGTHS g.
Proof.
  split; [| split; [| split; [| split; reflexivity]]].
  - intros f v. rewrite edit_lookup_eq. destruct f; reflexivity.
  - intros d p a. apply lookup_record_update_eq.
  - intros r Hr. rewrite save_all_lookup, Hr. reflexivity.
Qed.

Lemma commit_stores_buffered_values_witness :
  let st := handleEditInputChange SIXTH FieldPresent 12
              (handleBulkEditClick (initial_state sample_host NoItem)) in
  editingDailyAttendance st !! grade_value SIXTH = Some (mkRecord 12 0)
  ∧ lookup_record (classAttendanceData (handleSaveAllClick st))
      (grade_value SIXTH) (selectedDate st)
    = Some (mkRecord 12 0).
Proof.
  intros st.
  assert (Hbuf : editingDailyAttendance st !! grade_value SIXTH = Some (mkRecord 12 0))
    by reflexivity.
  split; [exact Hbuf |].
  apply (proj1 (proj2 (proj2 (commit_stores_buffered_values st SIXTH))) _ Hbuf).
Defined.

(** C2, as stated, fails: the values committed for an edit need not lie
    between zero and the strength of the grade.  From the initial state,
    entering bulk mode, typing 1000 present and -5 absent for the sixth
    grade (strength 19) and saving stores 1000 and -5. *)
Lemma out_of_range_edit_is_committed :
  let H := sample_host in
  let st0 := initial_state H NoItem in
  let actions := [ BulkEditClick;
                   EditInputChange SIXTH FieldPresent (input_value (Some 1000));
                   EditInputChange SIXTH FieldAbsent (input_value (Some (-5)));
                   SaveAllClick ] in
  reachable H (run H actions st0)
  ∧ lookup_record (classAttendanceData (run H actions st0))
      (grade_value SIXTH) (selectedDate st0)
    = Some (mkRecord 1000 (-5))
  ∧ CLASS_STRENGTHS SIXTH = 19
  ∧ ¬ (0 ≤ 1000 ≤ CLASS_STRENGTHS SIXTH)%Z
  ∧ ¬ (0 ≤ -5 ≤ CLASS_STRENGTHS SIXTH)%Z.
Proof.
  intros H st0 actions. split; [| split; [| split; [| split]]].
  - unfold actions, run; cbn [foldl].
    repeat (apply reachable_step; [| reflexivity]). apply reachable_initial.
  - vm_compute. reflexivity.
  - reflexivity.
  - simpl. lia.
  - simpl. lia.
Qed.

(** ** Percentages *)

Lemma percentage_traced_guard count total den :
  den ∈ snd (percentage_traced count total) →
  den = total ∧ num_gt total (number_of_Z 0) = true.
Proof.
  unfold percentage_traced.
  destruct (num_gt total (number_of_Z 0)) eqn:Hgt; simpl.
  - intros Hin. apply list_elem_of_singleton in Hin. auto.
  - intros Hin. inversion Hin.
Qed.

Lemma positive_not_zero (x : number) (s : bool) :
  num_gt x (number_of_Z 0) = true → x ≠ S754_zero s.
Proof. intros Hgt ->. destruct s; vm_compute in Hgt; discriminate. Qed.

(** C5. For a record with zero present and zero absent both percentages
    are the number 0 and print as ["0.0"], in the CSV line and in the PDF
    row alike, and no division is evaluated.  For every record, each
    denominator the percentage formula divides by is greater than zero, so
    it is not a zero of either sign. *)
Theorem zero_record_percentages (H : Host) :
  (∀ r, present r = 0 → absent r = 0 →
     dailyPresentPercentage r = S754_zero false
     ∧ dailyAbsentPercentage r = S754_zero false
     ∧ toFixed1 H (dailyPresentPercentage r) = "0.0"
     ∧ toFixed1 H (dailyAbsentPercentage r) = "0.0"
     ∧ divisions_of_record r = [])
  ∧ (∀ r den, den ∈ divisions_of_record r →
       num_gt den (number_of_Z 0) = true ∧ ∀ s, den ≠ S754_zero s)
  ∧ (∀ date g,
       csv_line H date g (mkRecord 0 0)
       = date ++ "," ++ grade_value g ++ "," ++ digits_of_Z (CLASS_STRENGTHS g)
         ++ ",0,0,0.0%,0.0%" ++ LF
       ∧ rowData H g (mkRecord 0 0)
         = [grade_value g; digits_of_Z (CLASS_STRENGTHS g); "0"; "0"; "0.0%"; "0.0%"]).
Proof.
  split; [| split].
  - intros [p a]; simpl; intros -> ->. repeat split.
  - intros r den Hin. unfold divisions_of_record in Hin.
    apply elem_of_app in Hin.
    assert (Hgt : num_gt den (number_of_Z 0) = true).
    { destruct Hin as [Hin | Hin];
        apply percentage_traced_guard in Hin as [-> Hgt]; exact Hgt. }
    split; [exact Hgt |]. intros s. apply positive_not_zero. exact Hgt.
  - intros date g. split; reflexivity.
Qed.

Lemma zero_record_percentages_witness :
  toFixed1 sample_host (dailyPresentPercentage (mkRecord 0 0)) = "0.0"
  ∧ (S754_finite false 5348024557502464 (-48) ∈ divisions_of_record (mkRecord 15 4)
     ∧ num_gt (S754_finite false 5348024557502464 (-48)) (number_of_Z 0) = true).
Proof.
  split.
  - apply (proj1 (zero_record_percentages sample_host) (mkRecord 0 0));
      reflexivity.
  - assert (Hin : S754_finite false 5348024557502464 (-48)
                  ∈ divisions_of_record (mkRecord 15 4))
      by (vm_compute; apply list_elem_of_here).
    split; [exact Hin |].
    apply (proj1 (proj2 (zero_record_percentages sample_host)) _ _ Hin).
Defined.

(** ** Strings *)

Lemma append_cons (x : ascii) (a b : string) : String x a ++ b = String x (a ++ b).
Proof. reflexivity. Qed.

Lemma append_assoc (a b c : string) : (a ++ b) ++ c = a ++ (b ++ c).
Proof.
  induction a as [| x a IH]; [reflexivity |].
  rewrite !append_cons, IH. reflexivity.
Qed.

Lemma append_empty_r (a : string) : a ++ "" = a.
Proof.
  induction a as [| x a IH]; [reflexivity |].
  rewrite append_cons, IH. reflexivity.
Qed.

Lemma concat_strings_app (l1 l2 : list string) :
  concat_strings (l1 ++ l2) = concat_strings l1 ++ concat_strings l2.
Proof.
  induction l1 as [| s l1 IH]; simpl; [reflexivity |].
  rewrite IH, append_assoc. reflexivity.
Qed.

(** ** The rows of the export *)

Lemma allDates_loop_spec (data : ClassAttendanceData) grades (acc : gset string) d :
  d ∈ foldl (fun acc grade =>
               match data !! grade_value grade with
               | Some dates => acc ∪ dom dates
               | None => acc
               end) acc grades
  ↔ d ∈ acc ∨ ∃ g, g ∈ grades ∧ is_Some (lookup_record data (grade_value g) d).
Proof.
  revert acc. induction grades as [| g grades IH]; intros acc; simpl.
  - split; [auto |]. intros [Hin | (g & Hin & _)]; [exact Hin | inversion Hin].
  - rewrite IH. unfold lookup_record. split.
    + intros [Hin | (g' & Hin & Hsome)].
      * destruct (data !! grade_value g) as [dates |] eqn:Hg; [| auto].
        apply elem_of_union in Hin as [Hin | Hin]; [auto |].
        right. exists g. split; [left |]. rewrite Hg. apply elem_of_dom. exact Hin.
      * right. exists g'. split; [right; exact Hin | exact Hsome].
    + intros [Hin | (g' & Hin & Hsome)].
      * left. destruct (data !! grade_value g); [apply elem_of_union; auto | exact Hin].
      * apply elem_of_cons in Hin as [-> | Hin].
        -- left. destruct (data !! grade_value g) as [dates |]; [| destruct Hsome; discriminate].
           apply elem_of_union. right. apply elem_of_dom. exact Hsome.
        -- right. exists g'. auto.
Qed.

Lemma elem_of_allDates data d :
  d ∈ allDates data ↔ ∃ g, is_Some (lookup_record data (grade_value g) d).
Proof.
  unfold allDates. rewrite allDates_loop_spec. split.
  - intros [Hin | (g & _ & Hsome)]; [| eauto].
    apply elem_of_empty in Hin. contradiction.
  - intros (g & Hsome). right. exists g. split; [apply CLASS_GRADES_complete | exact Hsome].
Qed.

Lemma elem_of_sortedDates data d :
  d ∈ sortedDates data ↔ ∃ g, is_Some (lookup_record data (grade_value g) d).
Proof.
  unfold sortedDates. rewrite merge_sort_Permutation, elem_of_elements.
  apply elem_of_allDates.
Qed.

(** The order in which a JavaScript [Set] lists its members does not show
    in the sorted array: sorting any duplicate-free listing of the dates
    gives [sortedDates]. *)
Lemma sortedDates_order_independent data (listing : list string) :
  NoDup listing → (∀ d, d ∈ listing ↔ d ∈ allDates data) →
  merge_sort String.le listing = sortedDates data.
Proof.
  intros Hnd Hsame. unfold sortedDates.
  apply (Sorted_unique String.le); try apply Sorted_merge_sort; try apply _.
  rewrite !merge_sort_Permutation.
  apply NoDup_Permutation; [exact Hnd | apply NoDup_elements |].
  intros d. rewrite Hsame, elem_of_elements. reflexivity.
Qed.

Lemma elem_of_rows_of_date data date d g r :
  (d, g, r) ∈ rows_of_date data date
  ↔ d = date ∧ lookup_record data (grade_value g) date = Some r.
Proof.
  unfold rows_of_date. rewrite list_elem_of_In, in_flat_map. split.
  - intros (g' & _ & Hin).
    destruct (lookup_record data (grade_value g') date) as [r' |] eqn:Hr; simpl in Hin.
    + destruct Hin as [Heq | []]. injection Heq as <- <- <-. auto.
    + contradiction.
  - intros [-> Hr]. exists g. split.
    + apply list_elem_of_In, CLASS_GRADES_complete.
    + rewrite Hr. left. reflexivity.
Qed.

Lemma elem_of_export_rows data d g r :
  (d, g, r) ∈ export_rows data ↔ lookup_record data (grade_value g) d = Some r.
Proof.
  unfold export_rows. rewrite list_elem_of_In, in_flat_map. split.
  - intros (date & _ & Hin). apply list_elem_of_In, elem_of_rows_of_date in Hin as [-> Hr].
    exact Hr.
  - intros Hr. exists d. split.
    + apply list_elem_of_In, elem_of_sortedDates. exists g. rewrite Hr. eexists; reflexivity.
    + apply list_elem_of_In, elem_of_rows_of_date. auto.
Qed.

(** The inner loop of [exportToCsv] appends the lines of the records of
    one date. *)
Lemma csv_inner_loop H data date grades csvContent :
  foldl (fun csvContent grade =>
           match lookup_record data (grade_value grade) date with
           | Some dailyRecord => csvContent ++ csv_line H date grade dailyRecord
           | None => csvContent
           end) csvContent grades
  = csvContent
    ++ concat_strings
         (csv_line_of_row H <$>
            flat_map (fun grade =>
                        match lookup_record data (grade_value grade) date with
                        | Some dailyRecord => [(date, grade, dailyRecord)]
                        | None => []
                        end) grades).
Proof.
  revert csvContent. induction grades as [| g grades IH]; intros csvContent.
  - simpl. rewrite append_empty_r. reflexivity.
  - cbn [foldl flat_map]. rewrite IH.
    destruct (lookup_record data (grade_value g) date) as [r |]; [| reflexivity].
    rewrite append_assoc. reflexivity.
Qed.

Lemma csv_outer_loop H data dates csvContent :
  foldl (fun csvContent date =>
           foldl (fun csvContent grade =>
                    match lookup_record data (grade_value grade) date with
                    | Some dailyRecord => csvContent ++ csv_line H date grade dailyRecord
                    | None => csvContent
                    end) csvContent CLASS_GRADES) csvContent dates
  = csvContent
    ++ concat_strings (csv_line_of_row H <$> flat_map (rows_of_date data) dates).
Proof.
  revert csvContent. induction dates as [| d dates IH]; intros csvContent.
  - simpl. rewrite append_empty_r. reflexivity.
  - cbn [foldl flat_map]. rewrite IH, csv_inner_loop.
    rewrite fmap_app, concat_strings_app, append_assoc. reflexivity.
Qed.

Lemma exportToCsv_rows H data :
  exportToCsv H data
  = (csv_prefix ++ csv_header ++ LF)
    ++ concat_strings (csv_line_of_row H <$> export_rows data).
Proof. apply csv_outer_loop. Qed.

(** ** The CSV text *)

Lemma length_append (a b : string) :
  String.length (a ++ b) = (String.length a + String.length b)%nat.
Proof.
  induction a as [| x a IH]; [reflexivity |].
  rewrite append_cons. cbn [String.length]. rewrite IH. reflexivity.
Qed.

Lemma substring_all (s : string) : substring 0 (String.length s) s = s.
Proof. induction s as [| x s IH]; [reflexivity |]. simpl. rewrite IH. reflexivity. Qed.

Lemma substring_skip (p s : string) n :
  substring (String.length p) n (p ++ s) = substring 0 n s.
Proof. induction p as [| x p IH]; [reflexivity |]. rewrite append_cons. exact IH. Qed.

(** The saved text is the header line and the lines of the visited
    records. *)
Lemma csv_document_rows H data :
  csv_document H data
  = csv_header ++ LF ++ concat_strings (csv_line_of_row H <$> export_rows data).
Proof.
  unfold csv_document. cbv zeta. rewrite exportToCsv_rows, !append_assoc.
  rewrite length_append, substring_skip.
  replace (String.length csv_prefix + _ - String.length csv_prefix)%nat
    with (String.length
            (csv_header ++ LF ++ concat_strings (csv_line_of_row H <$> export_rows data)))
    by lia.
  apply substring_all.
Qed.

Lemma lines_header (rest : string) :
  lines (csv_header ++ LF ++ rest) = csv_header :: lines rest.
Proof. reflexivity. Qed.

(** C6. Whatever the store, the first line of the exported text is the
    literal header
    [Date,Class Grade,Total Strength,Present,Absent,Present Percentage,Absent Percentage].
    In the scenario of the specification, a store that holds only 15
    present and 4 absent for the sixth grade on 2024-06-01 (with or without
    the empty maps of the other grades), the strength of the sixth grade
    being 19, the text is the header line followed by the single line
    [2024-06-01,6th Grade,19,15,4,78.9%,21.1%]. *)
Theorem csv_scenario (H : Host) :
  let scenario : ClassAttendanceData :=
    {[ "6th Grade" := {[ "2024-06-01" := mkRecord 15 4 ]} ]} in
  let header :=
    "Date,Class Grade,Total Strength,Present,Absent,Present Percentage,Absent Percentage" in
  let expected := [ header; "2024-06-01,6th Grade,19,15,4,78.9%,21.1%" ] in
  (∀ data, head (lines (csv_document H data)) = Some header)
  ∧ CLASS_STRENGTHS SIXTH = 19
  ∧ lines (csv_document H scenario) = expected
  ∧ lines (csv_document H (scenario ∪ INITIAL_CLASS_ATTENDANCE_DATA)) = expected
  ∧ exportToCsv H scenario
    = "data:text/csv;charset=utf-8," ++ header ++ LF
      ++ "2024-06-01,6th Grade,19,15,4,78.9%,21.1%" ++ LF.
Proof.
  intros scenario header expected.
  split; [| split; [reflexivity |]].
  - intros data. rewrite csv_document_rows, lines_header. reflexivity.
  - split; [vm_compute; reflexivity |].
    split; [vm_compute; reflexivity |].
    vm_compute; reflexivity.
Qed.

(** ** Order of the rows *)

Lemma sortedDates_strict data :
  StronglySorted (fun d1 d2 => String.le d1 d2 ∧ d1 ≠ d2) (sortedDates data).
Proof.
  assert (Hs : StronglySorted String.le (sortedDates data))
    by (apply StronglySorted_merge_sort; apply _).
  assert (Hnd : NoDup (sortedDates data)).
  { unfold sortedDates. rewrite merge_sort_Permutation. apply NoDup_elements. }
  induction Hs as [| d l Hs IH Hall]; [constructor |].
  apply NoDup_cons in Hnd as [Hnotin Hnd].
  constructor; [apply IH; exact Hnd |].
  apply Forall_forall. intros d' Hin. split.
  - eapply Forall_forall in Hall; [exact Hall | exact Hin].
  - intros ->. contradiction.
Qed.

Lemma rows_of_grades_sorted data date grades :
  StronglySorted (fun g1 g2 => (grade_index g1 < grade_index g2)%nat) grades →
  StronglySorted row_before
    (flat_map (fun grade =>
                 match lookup_record data (grade_value grade) date with
                 | Some dailyRecord => [(date, grade, dailyRecord)]
                 | None => []
                 end) grades).
Proof.
  induction 1 as [| g grades Hs IH Hall]; [constructor |].
  cbn [flat_map].
  destruct (lookup_record data (grade_value g) date) as [r |]; [| exact IH].
  constructor; [exact IH |].
  apply Forall_forall. intros [[d' g'] r'] Hin.
  apply list_elem_of_In, in_flat_map in Hin as (g'' & Hg'' & Hin).
  destruct (lookup_record data (grade_value g'') date); simpl in Hin; [| contradiction].
  destruct Hin as [Heq | []]. injection Heq as <- <- <-.
  right. split; [reflexivity |].
  eapply Forall_forall in Hall; [exact Hall | apply list_elem_of_In; exact Hg''].
Qed.

Lemma CLASS_GRADES_sorted :
  StronglySorted (fun g1 g2 => (grade_index g1 < grade_index g2)%nat) CLASS_GRADES.
Proof. unfold CLASS_GRADES. repeat constructor. Qed.

Lemma rows_of_date_sorted data date :
  StronglySorted row_before (rows_of_date data date).
Proof. apply rows_of_grades_sorted, CLASS_GRADES_sorted. Qed.

Lemma rows_of_dates_sorted data dates :
  StronglySorted (fun d1 d2 => String.le d1 d2 ∧ d1 ≠ d2) dates →
  StronglySorted row_before (flat_map (rows_of_date data) dates).
Proof.
  induction 1 as [| d dates Hs IH Hall]; [constructor |].
  cbn [flat_map]. apply StronglySorted_app_2; [| apply rows_of_date_sorted | exact IH].
  intros [[d1 g1] r1] [[d2 g2] r2] Hin1 Hin2.
  apply elem_of_rows_of_date in Hin1 as [-> _].
  apply list_elem_of_In, in_flat_map in Hin2 as (d' & Hd' & Hin2).
  apply list_elem_of_In, elem_of_rows_of_date in Hin2 as [-> _].
  left. eapply Forall_forall in Hall; [exact Hall | apply list_elem_of_In; exact Hd'].
Qed.

Lemma export_rows_sorted data : StronglySorted row_before (export_rows data).
Proof. apply rows_of_dates_sorted, sortedDates_strict. Qed.

Lemma row_before_key_ne r1 r2 : row_before r1 r2 → row_key r1 ≠ row_key r2.
Proof.
  destruct r1 as [[d1 g1] x1], r2 as [[d2 g2] x2]. unfold row_key; simpl.
  intros [[_ Hne] | [_ Hlt]] Heq; injection Heq as Hd Hg.
  - contradiction.
  - subst g2. lia.
Qed.

(** In a list sorted by [row_before], the rows of a key are at most one. *)
Lemma sorted_rows_filter_key rows key :
  StronglySorted row_before rows →
  filter (fun row => row_key row = key) rows
  = match list_find (fun row => row_key row = key) rows with
    | Some (_, row) => [row]
    | None => []
    end.
Proof.
  induction 1 as [| row rows Hs IH Hall]; [reflexivity |].
  cbn [list_find]. rewrite filter_cons.
  destruct (decide (row_key row = key)) as [Hk | Hk].
  - f_equal. apply elem_of_nil_inv. intros row' Hin'.
    apply list_elem_of_filter in Hin' as [Hk' Hin].
    eapply Forall_forall in Hall; [| exact Hin].
    apply row_before_key_ne in Hall. congruence.
  - rewrite IH. destruct (list_find _ rows) as [[i row'] |]; reflexivity.
Qed.

Lemma export_rows_of_key data d g :
  filter (fun row => row_key row = (d, g)) (export_rows data)
  = match lookup_record data (grade_value g) d with
    | Some r => [(d, g, r)]
    | None => []
    end.
Proof.
  rewrite sorted_rows_filter_key by apply export_rows_sorted.
  destruct (list_find _ (export_rows data)) as [[i [[d' g'] r']] |] eqn:Hfind.
  - apply list_find_Some in Hfind as (Hi & Hk & _).
    unfold row_key in Hk; simpl in Hk. injection Hk as -> ->.
    apply list_elem_of_lookup_2, elem_of_export_rows in Hi. rewrite Hi. reflexivity.
  - destruct (lookup_record data (grade_value g) d) as [r |] eqn:Hr; [| reflexivity].
    apply elem_of_export_rows in Hr.
    eapply list_find_None, Forall_forall in Hfind; [| exact Hr].
    exfalso. apply Hfind. reflexivity.
Qed.

(** ** Date strings and calendar order *)

Lemma digit_compare i j :
  (i < 10)%nat → (j < 10)%nat → Ascii.compare (digit i) (digit j) = Nat.compare i j.
Proof.
  intros Hi Hj.
  do 10 (destruct i as [| i];
         [do 10 (destruct j as [| j]; [reflexivity |]); lia |]).
  lia.
Qed.

Lemma compare_digit_cons i j s t :
  (i < 10)%nat → (j < 10)%nat →
  String.compare (String (digit i) s) (String (digit j) t)
  = match Nat.compare i j with
    | Eq => String.compare s t
    | c => c
    end.
Proof. intros Hi Hj. cbn [String.compare]. rewrite digit_compare by assumption. reflexivity. Qed.

Lemma compare_dash_cons s t :
  String.compare ("-" ++ s) ("-" ++ t) = String.compare s t.
Proof. reflexivity. Qed.

Lemma four_digits y :
  (y < 10 * 1000)%nat →
  (y / 1000 < 10 ∧ (y / 100) mod 10 < 10 ∧ (y / 10) mod 10 < 10 ∧ y mod 10 < 10
   ∧ y = 1000 * (y / 1000) + 100 * ((y / 100) mod 10) + 10 * ((y / 10) mod 10) + y mod 10)%nat.
Proof.
  intros Hy.
  pose proof (Nat.div_mod_eq y 10) as H1.
  pose proof (Nat.div_mod_eq (y / 10) 10) as H2.
  pose proof (Nat.div_mod_eq (y / 100) 10) as H3.
  pose proof (Nat.mod_upper_bound y 10) as B1.
  pose proof (Nat.mod_upper_bound (y / 10) 10) as B2.
  pose proof (Nat.mod_upper_bound (y / 100) 10) as B3.
  assert (E2 : (y / 10 / 10 = y / 100)%nat) by (rewrite Nat.Div0.div_div; reflexivity).
  assert (E3 : (y / 100 / 10 = y / 1000)%nat) by (rewrite Nat.Div0.div_div; reflexivity).
  rewrite E2 in H2. rewrite E3 in H3. lia.
Qed.

Lemma two_digits m :
  (m < 100)%nat → (m / 10 < 10 ∧ m mod 10 < 10 ∧ m = 10 * (m / 10) + m mod 10)%nat.
Proof.
  intros Hm.
  pose proof (Nat.div_mod_eq m 10) as H1.
  pose proof (Nat.mod_upper_bound m 10) as B1. lia.
Qed.

Ltac settle_compare x y :=
  first [ let Hc := fresh "Hc" in
          assert (Hc : (x < y)%nat) by lia;
          apply Nat.compare_lt_iff in Hc; rewrite Hc
        | let Hc := fresh "Hc" in
          assert (Hc : (y < x)%nat) by lia;
          apply Nat.compare_gt_iff in Hc; rewrite Hc
        | let Hc := fresh "Hc" in
          assert (Hc : x = y) by lia;
          apply Nat.compare_eq_iff in Hc; rewrite Hc ].

Lemma iso_date_compare y1 m1 d1 y2 m2 d2 :
  (y1 < 10 * 1000 ∧ m1 < 100 ∧ d1 < 100)%nat → (y2 < 10 * 1000 ∧ m2 < 100 ∧ d2 < 100)%nat →
  String.compare (iso_date y1 m1 d1) (iso_date y2 m2 d2)
  = match Nat.compare y1 y2 with
    | Eq => match Nat.compare m1 m2 with
            | Eq => Nat.compare d1 d2
            | c => c
            end
    | c => c
    end.
Proof.
  intros (Hy1 & Hm1 & Hd1) (Hy2 & Hm2 & Hd2).
  destruct (four_digits y1 Hy1) as (A1 & B1 & C1 & E1 & Y1).
  destruct (four_digits y2 Hy2) as (A2 & B2 & C2 & E2 & Y2).
  destruct (two_digits m1 Hm1) as (P1 & Q1 & M1).
  destruct (two_digits m2 Hm2) as (P2 & Q2 & M2).
  destruct (two_digits d1 Hd1) as (U1 & V1 & D1).
  destruct (two_digits d2 Hd2) as (U2 & V2 & D2).
  unfold iso_date. cbn [digit_string].
  rewrite !compare_digit_cons, !compare_dash_cons, !compare_digit_cons,
          !compare_dash_cons, !compare_digit_cons by assumption.
  cbn [String.compare].
  revert A1 B1 C1 E1 Y1 A2 B2 C2 E2 Y2 P1 Q1 M1 P2 Q2 M2 U1 V1 D1 U2 V2 D2.
  generalize (y1 / 1000)%nat ((y1 / 100) mod 10)%nat ((y1 / 10) mod 10)%nat (y1 mod 10)%nat.
  intros a1 b1 c1 e1.
  generalize (y2 / 1000)%nat ((y2 / 100) mod 10)%nat ((y2 / 10) mod 10)%nat (y2 mod 10)%nat.
  intros a2 b2 c2 e2.
  generalize (m1 / 10)%nat (m1 mod 10)%nat (m2 / 10)%nat (m2 mod 10)%nat.
  intros p1 q1 p2 q2.
  generalize (d1 / 10)%nat (d1 mod 10)%nat (d2 / 10)%nat (d2 mod 10)%nat.
  intros u1 v1 u2 v2. intros.
  destruct (Nat.compare_spec a1 a2); [| settle_compare y1 y2; reflexivity ..].
  destruct (Nat.compare_spec b1 b2); [| settle_compare y1 y2; reflexivity ..].
  destruct (Nat.compare_spec c1 c2); [| settle_compare y1 y2; reflexivity ..].
  destruct (Nat.compare_spec e1 e2); [| settle_compare y1 y2; reflexivity ..].
  settle_compare y1 y2.
  destruct (Nat.compare_spec p1 p2); [| settle_compare m1 m2; reflexivity ..].
  destruct (Nat.compare_spec q1 q2); [| settle_compare m1 m2; reflexivity ..].
  settle_compare m1 m2.
  destruct (Nat.compare_spec u1 u2); [| settle_compare d1 d2; reflexivity ..].
  destruct (Nat.compare_spec v1 v2); settle_compare d1 d2; reflexivity.
Qed.

Lemma compare_refl (s : string) : String.compare s s = Eq.
Proof.
  pose proof (String.compare_antisym s s) as Hs.
  destruct (String.compare s s); [reflexivity | discriminate ..].
Qed.

Lemma strictly_before_compare (s t : string) :
  String.le s t ∧ s ≠ t ↔ String.compare s t = Lt.
Proof.
  unfold String.le, String.leb. split.
  - intros [Hle Hne]. destruct (String.compare s t) eqn:Hc.
    + apply String.compare_eq_iff in Hc. contradiction.
    + reflexivity.
    + destruct Hle.
  - intros Hc. rewrite Hc. split; [exact I |].
    intros ->. rewrite compare_refl in Hc. discriminate.
Qed.

(** For dates of the years 0 to 9999 the order of the strings is the order
    of the calendar. *)
Lemma iso_date_order y1 m1 d1 y2 m2 d2 :
  (y1 < 10 * 1000 ∧ m1 < 100 ∧ d1 < 100)%nat → (y2 < 10 * 1000 ∧ m2 < 100 ∧ d2 < 100)%nat →
  (String.le (iso_date y1 m1 d1) (iso_date y2 m2 d2)
   ∧ iso_date y1 m1 d1 ≠ iso_date y2 m2 d2
   ↔ date_lt (y1, m1, d1) (y2, m2, d2))
  ∧ (iso_date y1 m1 d1 = iso_date y2 m2 d2 ↔ (y1, m1, d1) = (y2, m2, d2)).
Proof.
  intros Hb1 Hb2. pose proof (iso_date_compare _ _ _ _ _ _ Hb1 Hb2) as Hc.
  rewrite strictly_before_compare. unfold date_lt. split.
  - rewrite Hc.
    destruct (Nat.compare_spec y1 y2);
      [| split; [lia | reflexivity] | split; [discriminate | lia]].
    destruct (Nat.compare_spec m1 m2);
      [| split; [lia | reflexivity] | split; [discriminate | lia]].
    destruct (Nat.compare_spec d1 d2);
      [split; [discriminate | lia] | split; [lia | reflexivity]
       | split; [discriminate | lia]].
  - split.
    + intros Heq. rewrite Heq, compare_refl in Hc.
      destruct (Nat.compare_spec y1 y2); try discriminate.
      destruct (Nat.compare_spec m1 m2); try discriminate.
      destruct (Nat.compare_spec d1 d2); try discriminate.
      congruence.
    + intros Heq. injection Heq as -> -> ->. reflexivity.
Qed.

Lemma iso_date_plain y m d : iso_date y m d ∉ Object_prototype_keys.
Proof.
  assert (Hlen : String.length (iso_date y m d) = 10%nat) by reflexivity.
  unfold Object_prototype_keys. intros Hin.
  repeat (apply elem_of_cons in Hin as [Heq | Hin];
          [rewrite Heq in Hlen; discriminate Hlen |]).
  apply elem_of_nil in Hin. exact Hin.
Qed.

Lemma read_daily_own data g d r :
  lookup_record data (grade_value g) d = Some r → read_daily data g d = OwnRecord r.
Proof.
  unfold lookup_record, read_daily.
  destruct (data !! grade_value g) as [dates |]; [| discriminate].
  intros ->. reflexivity.
Qed.

Lemma read_daily_plain data g d :
  d ∉ Object_prototype_keys →
  read_daily data g d
  = match lookup_record data (grade_value g) d with
    | Some r => OwnRecord r
    | None => NotFound
    end.
Proof.
  intros Hd. unfold lookup_record, read_daily.
  destruct (data !! grade_value g) as [dates |]; [| reflexivity].
  destruct (dates !! d); [reflexivity |].
  destruct (decide (d ∈ Object_prototype_keys)); [contradiction | reflexivity].
Qed.

Lemma foldl_pointwise_in {A B} (f g : A → B → A) (l : list B) (a : A) :
  (∀ a b, b ∈ l → f a b = g a b) → foldl f a l = foldl g a l.
Proof.
  revert a. induction l as [| b l IH]; intros a Hfg; [reflexivity |].
  cbn [foldl]. rewrite Hfg by (apply elem_of_cons; auto).
  apply IH. intros a' b' Hb'. apply Hfg. apply elem_of_cons. auto.
Qed.

Lemma exportToCsv_plain H data :
  plain_dates data → exportToCsv_with_prototype H data = exportToCsv H data.
Proof.
  intros Hplain. unfold exportToCsv_with_prototype, exportToCsv.
  apply foldl_pointwise_in. intros csvContent date Hdate.
  apply foldl_pointwise_in. intros csvContent' grade _.
  rewrite read_daily_plain.
  - destruct (lookup_record data (grade_value grade) date); reflexivity.
  - apply Hplain, elem_of_allDates. apply elem_of_sortedDates in Hdate. exact Hdate.
Qed.

(** A loaded store in which a date key is the name of a member of
    [Object.prototype], which no ISO date is.  The key is among the dates
    the exporters collect, and the read for a grade that has no record
    under it finds the inherited member, where the read among the store's
    own keys finds nothing; the program then writes a line for every
    grade. *)
Example prototype_named_date :
  let data := ({[ "6th Grade" := {[ "constructor" := mkRecord 15 4 ]} ]}
               : ClassAttendanceData) ∪ INITIAL_CLASS_ATTENDANCE_DATA in
  "constructor" ∈ allDates data
  ∧ ¬ plain_dates data
  ∧ read_daily data SIXTH "constructor" = OwnRecord (mkRecord 15 4)
  ∧ read_daily data SEVENTH "constructor" = InheritedMember
  ∧ lookup_record data (grade_value SEVENTH) "constructor" = None
  ∧ exportToCsv_with_prototype sample_host data
    = csv_prefix ++ csv_header ++ LF
      ++ "constructor,6th Grade,19,15,4,78.9%,21.1%" ++ LF
      ++ "constructor,7th Grade,48,undefined,undefined,0.0%,0.0%" ++ LF
      ++ "constructor,8th Grade,47,undefined,undefined,0.0%,0.0%" ++ LF
      ++ "constructor,9th Grade,56,undefined,undefined,0.0%,0.0%" ++ LF
      ++ "constructor,10th Grade,66,undefined,undefined,0.0%,0.0%" ++ LF.
Proof.
  intros data.
  assert (Hin : "constructor" ∈ allDates data).
  { apply elem_of_allDates. exists SIXTH. eexists. reflexivity. }
  split; [exact Hin | split; [| split; [| split; [| split]]]];
    try (vm_compute; reflexivity).
  intros Hplain. apply (Hplain "constructor" Hin).
  unfold Object_prototype_keys. apply elem_of_cons. left. reflexivity.
Qed.

(** *** The rows the program visits *)

Lemma csv_prototype_inner_loop H data date grades csvContent :
  foldl (fun csvContent grade =>
           match read_daily data grade date with
           | OwnRecord dailyRecord => csvContent ++ csv_line H date grade dailyRecord
           | InheritedMember => csvContent ++ csv_line_inherited H date grade
           | NotFound => csvContent
           end) csvContent grades
  = csvContent
    ++ concat_strings
         (csv_line_of_read H <$>
            flat_map (fun grade =>
                        let dailyRecord := read_daily data grade date in
                        if truthy dailyRecord then [(date, grade, dailyRecord)] else [])
                     grades).
Proof.
  revert csvContent. induction grades as [| g grades IH]; intros csvContent.
  - simpl. rewrite append_empty_r. reflexivity.
  - cbn [foldl flat_map]. rewrite IH. cbv zeta.
    destruct (read_daily data g date) as [r | |]; [| | reflexivity];
      rewrite append_assoc; reflexivity.
Qed.

Lemma csv_prototype_outer_loop H data dates csvContent :
  foldl (fun csvContent date =>
           foldl (fun csvContent grade =>
                    match read_daily data grade date with
                    | OwnRecord dailyRecord =>
                        csvContent ++ csv_line H date grade dailyRecord
                    | InheritedMember => csvContent ++ csv_line_inherited H date grade
                    | NotFound => csvContent
                    end) csvContent CLASS_GRADES) csvContent dates
  = csvContent
    ++ concat_strings (csv_line_of_read H <$> flat_map (visited_rows_of_date data) dates).
Proof.
  revert csvContent. induction dates as [| d dates IH]; intros csvContent.
  - simpl. rewrite append_empty_r. reflexivity.
  - cbn [foldl flat_map]. rewrite IH, csv_prototype_inner_loop.
    rewrite fmap_app, concat_strings_app, append_assoc. reflexivity.
Qed.

Lemma exportToCsv_with_prototype_rows H data :
  exportToCsv_with_prototype H data
  = (csv_prefix ++ csv_header ++ LF)
    ++ concat_strings (csv_line_of_read H <$> visited_rows data).
Proof. apply csv_prototype_outer_loop. Qed.

Lemma elem_of_visited_rows_of_date data date d g v :
  (d, g, v) ∈ visited_rows_of_date data date
  ↔ d = date ∧ read_daily data g date = v ∧ truthy v = true.
Proof.
  unfold visited_rows_of_date. rewrite list_elem_of_In, in_flat_map. cbv zeta. split.
  - intros (g' & _ & Hin).
    destruct (truthy (read_daily data g' date)) eqn:Ht; simpl in Hin; [| contradiction].
    destruct Hin as [Heq | []]. injection Heq as <- <- <-. auto.
  - intros (-> & <- & Ht). exists g. split.
    + apply list_elem_of_In, CLASS_GRADES_complete.
    + rewrite Ht. left. reflexivity.
Qed.

Lemma elem_of_visited_rows data d g v :
  (d, g, v) ∈ visited_rows data
  ↔ d ∈ allDates data ∧ read_daily data g d = v ∧ truthy v = true.
Proof.
  unfold visited_rows. rewrite list_elem_of_In, in_flat_map. split.
  - intros (date & Hdate & Hin).
    apply list_elem_of_In, elem_of_visited_rows_of_date in Hin as (-> & Hv & Ht).
    split; [| auto].
    apply elem_of_allDates. apply elem_of_sortedDates, list_elem_of_In. exact Hdate.
  - intros (Hd & Hv & Ht). exists d. split.
    + apply list_elem_of_In, elem_of_sortedDates. apply elem_of_allDates. exact Hd.
    + apply list_elem_of_In, elem_of_visited_rows_of_date. auto.
Qed.

Lemma visits_of_grades_sorted data date grades :
  StronglySorted (fun g1 g2 => (grade_index g1 < grade_index g2)%nat) grades →
  StronglySorted visit_before
    (flat_map (fun grade =>
                 let dailyRecord := read_daily data grade date in
                 if truthy dailyRecord then [(date, grade, dailyRecord)] else [])
              grades).
Proof.
  induction 1 as [| g grades Hs IH Hall]; [constructor |].
  cbn [flat_map]. cbv zeta.
  destruct (truthy (read_daily data g date)); [| exact IH].
  constructor; [exact IH |].
  apply Forall_forall. intros [[d' g'] v'] Hin.
  apply list_elem_of_In, in_flat_map in Hin as (g'' & Hg'' & Hin).
  destruct (truthy (read_daily data g'' date)); simpl in Hin; [| contradiction].
  destruct Hin as [Heq | []]. injection Heq as <- <- <-.
  right. split; [reflexivity |].
  eapply Forall_forall in Hall; [exact Hall | apply list_elem_of_In; exact Hg''].
Qed.

Lemma visits_of_dates_sorted data dates :
  StronglySorted (fun d1 d2 => String.le d1 d2 ∧ d1 ≠ d2) dates →
  StronglySorted visit_before (flat_map (visited_rows_of_date data) dates).
Proof.
  induction 1 as [| d dates Hs IH Hall]; [constructor |].
  cbn [flat_map].
  apply StronglySorted_app_2;
    [| apply visits_of_grades_sorted, CLASS_GRADES_sorted | exact IH].
  intros [[d1 g1] v1] [[d2 g2] v2] Hin1 Hin2.
  apply elem_of_visited_rows_of_date in Hin1 as [-> _].
  apply list_elem_of_In, in_flat_map in Hin2 as (d' & Hd' & Hin2).
  apply list_elem_of_In, elem_of_visited_rows_of_date in Hin2 as [-> _].
  left. eapply Forall_forall in Hall; [exact Hall | apply list_elem_of_In; exact Hd'].
Qed.

Lemma visited_rows_sorted data : StronglySorted visit_before (visited_rows data).
Proof. apply visits_of_dates_sorted, sortedDates_strict. Qed.

Lemma visit_before_key_ne r1 r2 : visit_before r1 r2 → r1.1 ≠ r2.1.
Proof.
  destruct r1 as [[d1 g1] x1], r2 as [[d2 g2] x2]. simpl.
  intros [[_ Hne] | [_ Hlt]] Heq; injection Heq as Hd Hg.
  - contradiction.
  - subst g2. lia.
Qed.

(** In a list sorted by [visit_before], a row of a key is the only one. *)
Lemma sorted_visits_of_key rows row :
  StronglySorted visit_before rows → row ∈ rows →
  filter (fun row' => row'.1 = row.1) rows = [row].
Proof.
  induction 1 as [| row0 rows Hs IH Hall]; intros Hin; [inversion Hin |].
  rewrite filter_cons. apply elem_of_cons in Hin as [-> | Hin].
  - destruct (decide (row0.1 = row0.1)) as [_ | Hne]; [| contradiction].
    f_equal. apply elem_of_nil_inv. intros row' Hin'.
    apply list_elem_of_filter in Hin' as [Hk' Hin'].
    eapply Forall_forall in Hall; [| exact Hin'].
    apply visit_before_key_ne in Hall. congruence.
  - destruct (decide (row0.1 = row.1)) as [Hk | _]; [| exact (IH Hin)].
    eapply Forall_forall in Hall; [| exact Hin].
    apply visit_before_key_ne in Hall. contradiction.
Qed.

(** The rows visited for a (date, grade) pair: the value read for it when
    the date is one of the collected dates and the value is truthy. *)
Lemma visited_rows_of_key data d g :
  filter (fun row => row.1 = (d, g)) (visited_rows data)
  = if decide (d ∈ allDates data)
    then if truthy (read_daily data g d) then [(d, g, read_daily data g d)] else []
    else [].
Proof.
  destruct (decide (d ∈ allDates data)) as [Hd | Hd];
    [destruct (truthy (read_daily data g d)) eqn:Ht |].
  - apply (sorted_visits_of_key _ (d, g, read_daily data g d));
      [apply visited_rows_sorted |].
    apply elem_of_visited_rows. auto.
  - apply elem_of_nil_inv. intros [[d' g'] v] Hin.
    apply list_elem_of_filter in Hin as [Hk Hin]. simpl in Hk. injection Hk as -> ->.
    apply elem_of_visited_rows in Hin as (_ & <- & Hv). congruence.
  - apply elem_of_nil_inv. intros [[d' g'] v] Hin.
    apply list_elem_of_filter in Hin as [Hk Hin]. simpl in Hk. injection Hk as -> ->.
    apply elem_of_visited_rows in Hin as (Hd' & _). contradiction.
Qed.

Lemma read_daily_inherited data g d :
  lookup_record data (grade_value g) d = None →
  read_daily data g d
  = if decide (d ∈ Object_prototype_keys ∧ is_Some (data !! grade_value g))
    then InheritedMember else NotFound.
Proof.
  unfold lookup_record, read_daily.
  destruct (data !! grade_value g) as [dates |].
  - intros ->. destruct (decide (d ∈ Object_prototype_keys)) as [Hd | Hd].
    + rewrite decide_True; [reflexivity | split; [exact Hd | eexists; reflexivity]].
    + rewrite decide_False; [reflexivity | intros [Hd' _]; contradiction].
  - intros _. rewrite decide_False; [reflexivity |].
    intros [_ [x Hx]]. discriminate Hx.
Qed.

Lemma visited_rows_of_date_plain data d :
  d ∉ Object_prototype_keys →
  visited_rows_of_date data d = own_row <$> rows_of_date data d.
Proof.
  intros Hd. unfold visited_rows_of_date, rows_of_date.
  induction CLASS_GRADES as [| g grades IH]; [reflexivity |].
  cbn [flat_map]. cbv zeta. rewrite fmap_app, IH, (read_daily_plain data g d Hd).
  destruct (lookup_record data (grade_value g) d); reflexivity.
Qed.

Lemma visited_rows_plain data :
  plain_dates data → visited_rows data = own_row <$> export_rows data.
Proof.
  intros Hplain. unfold visited_rows, export_rows.
  assert (Hdates : ∀ d, d ∈ sortedDates data → d ∉ Object_prototype_keys).
  { intros d Hd. apply Hplain, elem_of_allDates. apply elem_of_sortedDates in Hd.
    exact Hd. }
  induction (sortedDates data) as [| d dates IH]; [reflexivity |].
  cbn [flat_map]. rewrite fmap_app, IH.
  - rewrite visited_rows_of_date_plain; [reflexivity |].
    apply Hdates, elem_of_cons. auto.
  - intros d' Hd'. apply Hdates, elem_of_cons. auto.
Qed.



(** The dates of the specification's example, entered out of order, are
    exported in order: each date's rows together, grades in the order of
    the enumeration. *)
Example csv_date_order_example :
  let data :=
    updateDailyClassAttendance SIXTH "2024-01-02" 17 2
      (updateDailyClassAttendance SEVENTH "2024-01-01" 40 8
         (updateDailyClassAttendance SIXTH "2024-01-01" 19 0
            (updateDailyClassAttendance SIXTH "2024-01-03" 15 4
               INITIAL_CLASS_ATTENDANCE_DATA))) in
  row_key <$> export_rows data
  = [ ("2024-01-01", SIXTH); ("2024-01-01", SEVENTH);
      ("2024-01-02", SIXTH); ("2024-01-03", SIXTH) ].
Proof. vm_compute. reflexivity. Qed.

(** ** Rows in the exported artifacts *)

Lemma recorded_row_in_csv H data d g r :
  lookup_record data (grade_value g) d = Some r → csv_has_line H data d g r.
Proof.
  intros Hr. apply elem_of_export_rows, list_elem_of_split in Hr as (l1 & l2 & Hsplit).
  exists l1, l2. split; [exact Hsplit |].
  rewrite exportToCsv_rows, Hsplit.
  rewrite fmap_app, fmap_cons, concat_strings_app, append_assoc. reflexivity.
Qed.

Section pdf_growth.
Context (H : Host).
Local Open Scope list_scope.

Lemma extends_refl s : extends s s.
Proof. exists []. rewrite app_nil_r. reflexivity. Qed.

Lemma extends_trans s1 s2 s3 : extends s1 s2 → extends s2 s3 → extends s1 s3.
Proof.
  intros [m1 H1] [m2 H2]. exists (m1 ++ m2). rewrite H2, H1, app_assoc. reflexivity.
Qed.

Lemma extends_emit ops s : extends s (emit ops s).
Proof. exists ops. reflexivity. Qed.

Lemma extends_set_y y s : extends s (set_y y s).
Proof. exact (extends_refl s). Qed.

Lemma extends_advance_y dy s : extends s (advance_y dy s).
Proof. exact (extends_refl s). Qed.

Lemma extends_row_page_break s : extends s (row_page_break H s).
Proof.
  unfold row_page_break. destruct (num_gt _ _); [| apply extends_refl].
  repeat (eapply extends_trans;
          [| first [apply extends_emit | apply extends_advance_y | apply extends_set_y]]).
  apply extends_refl.
Qed.

Lemma extends_grade_step data date s ig : extends s (pdf_grade_step H data date s ig).
Proof.
  unfold pdf_grade_step.
  destruct (lookup_record data (grade_value ig.2) date); [| apply extends_refl].
  eapply extends_trans; [apply extends_row_page_break |].
  eapply extends_trans; [apply extends_emit | apply extends_advance_y].
Qed.

Lemma extends_foldl {A} (step : PdfState → A → PdfState) l s :
  (∀ s a, extends s (step s a)) → extends s (foldl step s l).
Proof.
  intros Hstep. revert s. induction l as [| a l IH]; intros s; simpl.
  - apply extends_refl.
  - eapply extends_trans; [apply Hstep | apply IH].
Qed.

Lemma extends_date_step data s date : extends s (pdf_date_step H data s date).
Proof.
  unfold pdf_date_step.
  eapply extends_trans; [| apply extends_advance_y].
  eapply extends_trans; [| apply extends_foldl; intros; apply extends_grade_step].
  repeat (eapply extends_trans;
          [| first [apply extends_emit | apply extends_advance_y]]).
  destruct (num_gt _ _); [| apply extends_refl].
  repeat (eapply extends_trans;
          [| first [apply extends_emit | apply extends_advance_y | apply extends_set_y]]).
  apply extends_refl.
Qed.

Lemma has_run_from_extends s0 block s s' :
  has_run_from s0 block s → extends s s' → has_run_from s0 block s'.
Proof.
  intros (y & before & after & Hs) [more Hs'].
  exists y, before, (after ++ more). rewrite Hs', Hs, <- !app_assoc. reflexivity.
Qed.

(** A loop whose steps only add calls keeps a run that one of its steps
    draws. *)
Lemma has_run_from_foldl {A} (step : PdfState → A → PdfState) s0 block l a s :
  (∀ s x, extends s (step s x)) →
  (∀ s, extends s0 s → has_run_from s0 block (step s a)) →
  a ∈ l → extends s0 s → has_run_from s0 block (foldl step s l).
Proof.
  intros Hext Hdraw Hin Hs. apply list_elem_of_split in Hin as (l1 & l2 & ->).
  rewrite foldl_app. cbn [foldl].
  eapply has_run_from_extends; [apply Hdraw | apply extends_foldl, Hext].
  eapply extends_trans; [exact Hs | apply extends_foldl, Hext].
Qed.

Lemma grade_step_draws s0 data date s g r :
  lookup_record data (grade_value g) date = Some r →
  extends s0 s →
  has_run_from s0 (draw_row H (grade_index g) g r)
               (pdf_grade_step H data date s (grade_index g, g)).
Proof.
  intros Hr Hs. unfold pdf_grade_step. cbn [fst snd]. rewrite Hr.
  destruct (extends_trans _ _ _ Hs (extends_row_page_break s)) as [before Hbefore].
  exists (pdf_y (row_page_break H s)), before, [].
  cbn [advance_y set_y emit pdf_ops]. rewrite Hbefore, app_nil_r, <- app_assoc.
  reflexivity.
Qed.

Lemma indexed_grades_complete g :
  (grade_index g, g) ∈ imap (fun i g => (i, g)) CLASS_GRADES.
Proof. destruct g; cbn; rewrite !elem_of_cons; tauto. Qed.

Lemma date_step_draws data date s g r :
  lookup_record data (grade_value g) date = Some r →
  has_run_from s (draw_row H (grade_index g) g r) (pdf_date_step H data s date).
Proof.
  intros Hr. unfold pdf_date_step.
  eapply has_run_from_extends; [| apply extends_advance_y].
  apply (has_run_from_foldl _ _ _ _ (grade_index g, g)).
  - intros; apply extends_grade_step.
  - intros s' Hs'. apply grade_step_draws; assumption.
  - apply indexed_grades_complete.
  - repeat (eapply extends_trans;
            [| first [apply extends_emit | apply extends_advance_y]]).
    destruct (num_gt _ _); [| apply extends_refl].
    repeat (eapply extends_trans;
            [| first [apply extends_emit | apply extends_advance_y | apply extends_set_y]]).
    apply extends_refl.
Qed.

Lemma recorded_row_in_pdf data d g r :
  lookup_record data (grade_value g) d = Some r → pdf_has_row H data d g r.
Proof.
  intros Hr.
  assert (Hd : d ∈ sortedDates data).
  { apply elem_of_sortedDates. exists g. rewrite Hr. eexists; reflexivity. }
  apply list_elem_of_split in Hd as (l1 & l2 & Hsplit).
  set (s := foldl (pdf_date_step H data) (pdf_preamble H) l1).
  destruct (extends_foldl (pdf_date_step H data) l2 (pdf_date_step H data s d)
              (fun s a => extends_date_step data s a)) as [more Hmore].
  exists s, (more ++ [Save (pdf_filename H)]). split.
  - apply date_step_draws. exact Hr.
  - unfold exportToPdf. cbv zeta. rewrite Hsplit, foldl_app. cbn [foldl].
    fold s. rewrite Hmore, <- app_assoc. reflexivity.
Qed.
End pdf_growth.


(** ** Records stay *)

Lemma update_keeps_record data g d p a k d' :
  is_Some (lookup_record data k d') →
  is_Some (lookup_record (updateDailyClassAttendance g d p a data) k d').
Proof.
  intros Hsome. destruct (decide ((k, d') = (grade_value g, d))) as [Heq | Hne].
  - injection Heq as -> ->. rewrite lookup_record_update_eq. eexists; reflexivity.
  - rewrite lookup_record_update_ne by exact Hne. exact Hsome.
Qed.

Lemma save_loop_keeps_record (buf : EditBuffer) date grades st k d' :
  is_Some (lookup_record (classAttendanceData st) k d') →
  is_Some (lookup_record (classAttendanceData (save_loop buf date grades st)) k d').
Proof.
  revert st. induction grades as [| g grades IH]; intros st Hst; [exact Hst |].
  rewrite save_loop_cons. apply IH.
  destruct (buf !! grade_value g) as [r |]; [| exact Hst].
  apply update_keeps_record. exact Hst.
Qed.

Lemma handle_keeps_record H a st k d :
  is_Some (lookup_record (classAttendanceData st) k d) →
  is_Some (lookup_record (classAttendanceData (handle H a st)) k d).
Proof.
  intros Hst. destruct a; try exact Hst.
  exact (save_loop_keeps_record (editingDailyAttendance st) (selectedDate st)
           CLASS_GRADES st k d Hst).
Qed.

Lemma run_keeps_record H actions st k d :
  is_Some (lookup_record (classAttendanceData st) k d) →
  is_Some (lookup_record (classAttendanceData (run H actions st)) k d).
Proof.
  revert st. induction actions as [| a actions IH]; intros st Hst; [exact Hst |].
  apply (IH (handle H a st)), handle_keeps_record, Hst.
Qed.



(** * Further properties of the handlers *)

(** ** Commits compose *)

Lemma update_same_noop data g d r :
  lookup_record data (grade_value g) d = Some r →
  updateDailyClassAttendance g d (present r) (absent r) data = data.
Proof.
  unfold lookup_record, updateDailyClassAttendance. intros Hr.
  destruct (data !! grade_value g) as [dates |] eqn:Hg; [| discriminate].
  simpl. rewrite record_eta, (insert_id dates) by exact Hr.
  apply insert_id. exact Hg.
Qed.

(** X1. A second commit to the same grade and date replaces the first: the
    store is the one the second commit alone would give.  Committing the
    record a grade already has on a date gives back the same store. *)
Theorem commit_overwrites (data : ClassAttendanceData) (g : ClassGrade) (d : string)
    (p a p' a' : Z) :
  updateDailyClassAttendance g d p a (updateDailyClassAttendance g d p' a' data)
  = updateDailyClassAttendance g d p a data
  ∧ (lookup_record data (grade_value g) d = Some (mkRecord p a) →
     updateDailyClassAttendance g d p a data = data).
Proof.
  split.
  - unfold updateDailyClassAttendance.
    rewrite lookup_insert_eq. cbn [default from_option id]. rewrite !insert_insert_eq. reflexivity.
  - intros Hr. apply (update_same_noop data g d (mkRecord p a) Hr).
Qed.

Lemma commit_overwrites_witness :
  let data := updateDailyClassAttendance SIXTH "2024-06-01" 15 4
                INITIAL_CLASS_ATTENDANCE_DATA in
  lookup_record data (grade_value SIXTH) "2024-06-01" = Some (mkRecord 15 4)
  ∧ updateDailyClassAttendance SIXTH "2024-06-01" 15 4 data = data.
Proof.
  intros data.
  assert (Hr : lookup_record data (grade_value SIXTH) "2024-06-01" = Some (mkRecord 15 4))
    by reflexivity.
  split; [exact Hr |].
  apply (proj2 (commit_overwrites data SIXTH "2024-06-01" 15 4 0 0) Hr).
Defined.

(** X2. Commits to different (grade, date) pairs can be made in either order. *)
Theorem commits_commute (data : ClassAttendanceData) (g1 g2 : ClassGrade)
    (d1 d2 : string) (p1 a1 p2 a2 : Z) :
  (g1, d1) ≠ (g2, d2) →
  updateDailyClassAttendance g1 d1 p1 a1 (updateDailyClassAttendance g2 d2 p2 a2 data)
  = updateDailyClassAttendance g2 d2 p2 a2 (updateDailyClassAttendance g1 d1 p1 a1 data).
Proof.
  intros Hne. unfold updateDailyClassAttendance.
  destruct (decide (g1 = g2)) as [-> | Hg].
  - assert (Hd : d1 ≠ d2) by congruence.
    rewrite !lookup_insert_eq. cbn [default from_option id]. rewrite !insert_insert_eq.
    f_equal. apply insert_insert_ne. exact Hd.
  - assert (Hv : grade_value g1 ≠ grade_value g2)
      by (intros Heq; apply grade_value_inj in Heq; contradiction).
    rewrite !lookup_insert_ne by congruence.
    apply insert_insert_ne. exact Hv.
Qed.

Lemma commits_commute_witness :
  (SIXTH, "2024-06-01") ≠ (SIXTH, "2024-06-02")
  ∧ updateDailyClassAttendance SIXTH "2024-06-01" 15 4
      (updateDailyClassAttendance SIXTH "2024-06-02" 19 0 INITIAL_CLASS_ATTENDANCE_DATA)
    = updateDailyClassAttendance SIXTH "2024-06-02" 19 0
        (updateDailyClassAttendance SIXTH "2024-06-01" 15 4 INITIAL_CLASS_ATTENDANCE_DATA).
Proof.
  assert (Hne : (SIXTH, "2024-06-01") ≠ (SIXTH, "2024-06-02")) by discriminate.
  split; [exact Hne |].
  apply (commits_commute INITIAL_CLASS_ATTENDANCE_DATA SIXTH SIXTH
           "2024-06-01" "2024-06-02" 15 4 19 0 Hne).
Defined.

(** ** Save-all, commit and cancel *)

Lemma save_loop_other_key (buf : EditBuffer) date grades st k :
  (∀ g, k ≠ grade_value g) →
  classAttendanceData (save_loop buf date grades st) !! k = classAttendanceData st !! k.
Proof.
  intros Hk. revert st. induction grades as [| g grades IH]; intros st; [reflexivity |].
  rewrite save_loop_cons, IH.
  destruct (buf !! grade_value g) as [r |]; [| reflexivity].
  apply update_other_grade, Hk.
Qed.

Lemma save_loop_date (buf : EditBuffer) date grades st :
  selectedDate (save_loop buf date grades st) = selectedDate st.
Proof.
  revert st. induction grades as [| g grades IH]; intros st; [reflexivity |].
  rewrite save_loop_cons, IH. destruct (buf !! grade_value g); reflexivity.
Qed.

(** X3. [handleSaveAllClick] commits exactly the buffered pairs: on the
    selected date a grade with a pair in the buffer gets that pair and a
    grade without one keeps its entry; no other date and no key that is
    not one of the five grades is touched; the buffer ends empty, bulk
    mode off and the selected date as it was. *)
Theorem save_all_commits_exactly_the_buffer (st : AppState) :
  let st' := handleSaveAllClick st in
  (∀ g, lookup_record (classAttendanceData st') (grade_value g) (selectedDate st)
        = match editingDailyAttendance st !! grade_value g with
          | Some r => Some r
          | None => lookup_record (classAttendanceData st) (grade_value g) (selectedDate st)
          end)
  ∧ (∀ k d, d ≠ selectedDate st →
       lookup_record (classAttendanceData st') k d
       = lookup_record (classAttendanceData st) k d)
  ∧ (∀ k, (∀ g, k ≠ grade_value g) →
       classAttendanceData st' !! k = classAttendanceData st !! k)
  ∧ editingDailyAttendance st' = ∅
  ∧ isBulkEditing st' = false
  ∧ selectedDate st' = selectedDate st.
Proof.
  cbv zeta. split; [| split; [| split; [| split; [reflexivity | split]]]].
  - intros g. apply save_all_lookup.
  - intros k d Hd. apply save_all_other_date. exact Hd.
  - intros k Hk. rewrite save_all_store. apply save_loop_other_key. exact Hk.
  - reflexivity.
  - apply save_loop_date.
Qed.

Lemma save_all_commits_exactly_the_buffer_witness :
  let st := mkState (updateDailyClassAttendance SEVENTH "2024-06-01" 40 8
                       INITIAL_CLASS_ATTENDANCE_DATA)
                    "2024-06-02" {[ "6th Grade" := mkRecord 15 4 ]} false in
  "2024-06-01" ≠ selectedDate st
  ∧ lookup_record (classAttendanceData (handleSaveAllClick st)) "7th Grade" "2024-06-01"
    = Some (mkRecord 40 8).
Proof.
  intros st.
  assert (Hd : "2024-06-01" ≠ selectedDate st) by discriminate.
  split; [exact Hd |].
  rewrite (proj1 (proj2 (save_all_commits_exactly_the_buffer st)) "7th Grade" _ Hd).
  reflexivity.
Defined.

(** X4. A commit outside bulk mode ends the editing of its own row only: the
    pair of the committed grade leaves the buffer and the pairs of the
    other grades stay; in bulk mode the buffer is left as it is.  So
    editing a grade that had no pair and committing it outside bulk mode
    gives back the buffer there was before the edit. *)
Theorem single_commit_clears_only_its_row (st : AppState) (g : ClassGrade)
    (d : string) (p a : Z) :
  let st' := handleUpdateDailyClassAttendance g d p a st in
  (isBulkEditing st = false →
     editingDailyAttendance st' !! grade_value g = None
     ∧ (∀ k, k ≠ grade_value g →
          editingDailyAttendance st' !! k = editingDailyAttendance st !! k))
  ∧ (isBulkEditing st = true → editingDailyAttendance st' = editingDailyAttendance st)
  ∧ (isBulkEditing st = false → editingDailyAttendance st !! grade_value g = None →
     ∀ f v,
       editingDailyAttendance
         (handleUpdateDailyClassAttendance g d p a (handleEditInputChange g f v st))
       = editingDailyAttendance st).
Proof.
  cbv zeta. unfold handleUpdateDailyClassAttendance. cbn [editingDailyAttendance].
  split; [| split].
  - intros ->. split; [apply lookup_delete_eq |].
    intros k Hk. apply lookup_delete_ne. congruence.
  - intros ->. reflexivity.
  - intros Hidle Hnone f v. unfold handleEditInputChange.
    cbn [isBulkEditing editingDailyAttendance]. rewrite Hidle.
    rewrite delete_insert_eq. apply delete_id. exact Hnone.
Qed.

Lemma single_commit_clears_only_its_row_witness :
  let st := mkState INITIAL_CLASS_ATTENDANCE_DATA "2024-06-01"
                    {[ "7th Grade" := mkRecord 40 8 ]} false in
  isBulkEditing st = false
  ∧ editingDailyAttendance st !! grade_value SIXTH = None
  ∧ editingDailyAttendance
      (handleUpdateDailyClassAttendance SIXTH "2024-06-01" 15 0
         (handleEditInputChange SIXTH FieldPresent 15 st))
    = editingDailyAttendance st.
Proof.
  intros st.
  assert (Hidle : isBulkEditing st = false) by reflexivity.
  assert (Hnone : editingDailyAttendance st !! grade_value SIXTH = None) by reflexivity.
  split; [exact Hidle | split; [exact Hnone |]].
  apply (proj2 (proj2 (single_commit_clears_only_its_row st SIXTH "2024-06-01" 15 0))
           Hidle Hnone FieldPresent 15).
Defined.

(** X5. Cancelling a bulk edit undoes it: from a state outside bulk mode with
    an empty buffer, entering bulk mode, making any field edits and
    cancelling gives back that very state. *)
Theorem cancel_restores_the_state (st : AppState)
    (edits : list (ClassGrade * Field * Z)) :
  isBulkEditing st = false → editingDailyAttendance st = ∅ →
  handleCancelBulkEditClick (apply_edits edits (handleBulkEditClick st)) = st.
Proof.
  intros Hidle Hempty. unfold handleCancelBulkEditClick.
  rewrite session_store, session_date.
  destruct st as [data date buf bulk]. simpl in Hidle, Hempty. subst. reflexivity.
Qed.

Lemma cancel_restores_the_state_witness :
  let st := initial_state sample_host NoItem in
  isBulkEditing st = false ∧ editingDailyAttendance st = ∅
  ∧ handleCancelBulkEditClick
      (apply_edits [(SIXTH, FieldPresent, 15)] (handleBulkEditClick st)) = st.
Proof.
  intros st. split; [reflexivity | split; [reflexivity |]].
  apply (cancel_restores_the_state st [(SIXTH, FieldPresent, 15)]); reflexivity.
Defined.

(** X6. Only "Save All" writes to the store: a run of gestures without it,
    whatever navigation, bulk entry, field edits and cancels it holds,
    leaves the store as it was. *)
Theorem store_changes_only_on_save (H : Host) (actions : list Action) (st : AppState) :
  Forall (fun a => a ≠ SaveAllClick) actions →
  classAttendanceData (run H actions st) = classAttendanceData st.
Proof.
  intros Hall. revert st.
  induction Hall as [| a actions Ha _ IH]; intros st; [reflexivity |].
  change (run H (a :: actions) st) with (run H actions (handle H a st)).
  rewrite IH. destruct a; try reflexivity. contradiction.
Qed.

Lemma store_changes_only_on_save_witness :
  let H := sample_host in
  let st := initial_state H NoItem in
  let actions := [BulkEditClick; EditInputChange SIXTH FieldPresent 15; NextDay] in
  Forall (fun a => a ≠ SaveAllClick) actions
  ∧ classAttendanceData (run H actions st) = classAttendanceData st.
Proof.
  intros H st actions.
  assert (Hall : Forall (fun a => a ≠ SaveAllClick) actions)
    by (repeat constructor; discriminate).
  split; [exact Hall |].
  apply (store_changes_only_on_save H actions st Hall).
Defined.

(** ** The edit buffer across the component's life *)

Lemma grade_value_in_keys g : grade_value g ∈ grade_keys.
Proof.
  unfold grade_keys. apply elem_of_list_to_set, list_elem_of_fmap.
  exists g. split; [reflexivity | apply CLASS_GRADES_complete].
Qed.

Lemma bulk_seed_dom st :
  dom (editingDailyAttendance (handleBulkEditClick st)) = grade_keys.
Proof.
  unfold handleBulkEditClick, grade_keys, CLASS_GRADES.
  cbn [editingDailyAttendance foldl fmap list_fmap list_to_set foldr].
  rewrite !dom_insert_L, dom_empty_L.
  apply set_eq. intros k. rewrite !elem_of_union, !elem_of_singleton, !elem_of_empty.
  tauto.
Qed.

(** X7. In every state the component can reach, the buffer is empty outside
    bulk mode, and in bulk mode its keys are exactly the five grades. *)
Theorem buffer_follows_the_mode (H : Host) (st : AppState) :
  reachable H st →
  (isBulkEditing st = false → editingDailyAttendance st = ∅)
  ∧ (isBulkEditing st = true → dom (editingDailyAttendance st) = grade_keys).
Proof.
  induction 1 as [stored | st a Hreach [IHidle IHbulk] Hrendered].
  - split; [reflexivity | discriminate].
  - destruct a; cbn [handle]; try (split; [reflexivity | discriminate]).
    + split; [discriminate |]. intros _. apply bulk_seed_dom.
    + cbn [rendered] in Hrendered. split.
      * cbn [handleEditInputChange isBulkEditing]. congruence.
      * intros _. unfold handleEditInputChange. cbn [editingDailyAttendance].
        rewrite dom_insert_L, (IHbulk Hrendered).
        apply set_eq. intros k. rewrite elem_of_union, elem_of_singleton.
        split; [intros [-> | Hk]; [apply grade_value_in_keys | exact Hk] | auto].
Qed.

Lemma buffer_follows_the_mode_witness :
  let H := sample_host in
  let st := handle H (EditInputChange NINTH FieldAbsent 3)
              (handle H BulkEditClick (initial_state H NoItem)) in
  reachable H st ∧ dom (editingDailyAttendance st) = grade_keys.
Proof.
  intros H st.
  assert (Hr : reachable H st).
  { apply reachable_step; [apply reachable_step; [apply reachable_initial |] |];
      reflexivity. }
  split; [exact Hr |].
  apply (proj2 (buffer_follows_the_mode H st Hr)). reflexivity.
Defined.


(** ** Saving without changes *)

Lemma save_loop_noop (buf : EditBuffer) date grades st :
  (∀ g r, g ∈ grades → buf !! grade_value g = Some r →
     lookup_record (classAttendanceData st) (grade_value g) date = Some r) →
  classAttendanceData (save_loop buf date grades st) = classAttendanceData st.
Proof.
  revert st. induction grades as [| g grades IH]; intros st Hsame; [reflexivity |].
  rewrite save_loop_cons.
  destruct (buf !! grade_value g) as [r |] eqn:Hg.
  - assert (Hstep :
      classAttendanceData
        (handleUpdateDailyClassAttendance g date (present r) (absent r) st)
      = classAttendanceData st).
    { unfold handleUpdateDailyClassAttendance. cbn [classAttendanceData].
      apply update_same_noop, Hsame; [rewrite elem_of_cons; auto | exact Hg]. }
    rewrite IH; [exact Hstep |].
    intros g' r' Hin Hbuf. rewrite Hstep.
    apply Hsame; [rewrite elem_of_cons; auto | exact Hbuf].
  - apply IH. intros g' r' Hin Hbuf.
    apply Hsame; [rewrite elem_of_cons; auto | exact Hbuf].
Qed.

Lemma save_all_date st : selectedDate (handleSaveAllClick st) = selectedDate st.
Proof. apply save_loop_date. Qed.

(** X8. "Save All" leaves the store as it is when every buffered pair is the
    record the store already holds for its grade on the selected date.  So
    entering bulk mode and saving at once changes nothing on a date on
    which all five grades are recorded, and doing it a second time never
    changes anything. *)
Theorem save_all_without_changes (st : AppState) :
  ((∀ g r, editingDailyAttendance st !! grade_value g = Some r →
      lookup_record (classAttendanceData st) (grade_value g) (selectedDate st) = Some r) →
   classAttendanceData (handleSaveAllClick st) = classAttendanceData st)
  ∧ ((∀ g, is_Some (lookup_record (classAttendanceData st) (grade_value g)
                      (selectedDate st))) →
     classAttendanceData (handleSaveAllClick (handleBulkEditClick st))
     = classAttendanceData st)
  ∧ (let st' := handleSaveAllClick (handleBulkEditClick st) in
     classAttendanceData (handleSaveAllClick (handleBulkEditClick st'))
     = classAttendanceData st').
Proof.
  assert (Hsame : ∀ s,
    (∀ g r, editingDailyAttendance s !! grade_value g = Some r →
       lookup_record (classAttendanceData s) (grade_value g) (selectedDate s) = Some r) →
    classAttendanceData (handleSaveAllClick s) = classAttendanceData s).
  { intros s Hs. rewrite save_all_store. apply save_loop_noop.
    intros g r _ Hbuf. apply Hs, Hbuf. }
  assert (Hseed : ∀ s,
    (∀ g, is_Some (lookup_record (classAttendanceData s) (grade_value g)
                     (selectedDate s))) →
    classAttendanceData (handleSaveAllClick (handleBulkEditClick s))
    = classAttendanceData s).
  { intros s Hs.
    transitivity (classAttendanceData (handleBulkEditClick s)); [| reflexivity].
    apply Hsame. intros g r. rewrite bulk_seed_lookup. intros [= <-].
    change (classAttendanceData (handleBulkEditClick s)) with (classAttendanceData s).
    change (selectedDate (handleBulkEditClick s)) with (selectedDate s).
    unfold currentDailyRecord. destruct (Hs g) as [r ->]. reflexivity. }
  split; [exact (Hsame st) | split; [exact (Hseed st) |]].
  cbv zeta. apply Hseed. intros g.
  rewrite save_all_date.
  change (selectedDate (handleBulkEditClick st)) with (selectedDate st).
  pose proof (save_all_lookup (handleBulkEditClick st) g) as Hl.
  change (selectedDate (handleBulkEditClick st)) with (selectedDate st) in Hl.
  rewrite Hl, bulk_seed_lookup. eexists; reflexivity.
Qed.

Lemma save_all_without_changes_witness :
  let st := mkState (updateDailyClassAttendance SIXTH "2024-06-01" 15 4
                       INITIAL_CLASS_ATTENDANCE_DATA)
                    "2024-06-01" {[ "6th Grade" := mkRecord 15 4 ]} true in
  (∀ g r, editingDailyAttendance st !! grade_value g = Some r →
     lookup_record (classAttendanceData st) (grade_value g) (selectedDate st) = Some r)
  ∧ classAttendanceData (handleSaveAllClick st) = classAttendanceData st.
Proof.
  intros st.
  assert (Hs : ∀ g r, editingDailyAttendance st !! grade_value g = Some r →
     lookup_record (classAttendanceData st) (grade_value g) (selectedDate st) = Some r).
  { intros g r. destruct g; vm_compute; intros Hr; first [exact Hr | discriminate Hr]. }
  split; [exact Hs |].
  apply (proj1 (save_all_without_changes st) Hs).
Defined.

(** X9. The selected date moves with the two navigation buttons only: a run
    of gestures without them, whatever it saves, edits or cancels, ends on
    the date it started on. *)
Theorem date_changes_only_on_navigation (H : Host) (actions : list Action)
    (st : AppState) :
  Forall (fun a => a ≠ PreviousDay ∧ a ≠ NextDay) actions →
  selectedDate (run H actions st) = selectedDate st.
Proof.
  intros Hall. revert st.
  induction Hall as [| a actions [Hprev Hnext] _ IH]; intros st; [reflexivity |].
  change (run H (a :: actions) st) with (run H actions (handle H a st)).
  rewrite IH. destruct a; try reflexivity; try contradiction.
  apply save_all_date.
Qed.

Lemma date_changes_only_on_navigation_witness :
  let H := sample_host in
  let st := initial_state H NoItem in
  let actions := [BulkEditClick; EditInputChange SIXTH FieldPresent 15; SaveAllClick] in
  Forall (fun a => a ≠ PreviousDay ∧ a ≠ NextDay) actions
  ∧ selectedDate (run H actions st) = selectedDate st.
Proof.
  intros H st actions.
  assert (Hall : Forall (fun a => a ≠ PreviousDay ∧ a ≠ NextDay) actions)
    by (repeat constructor; discriminate).
  split; [exact Hall |].
  apply (date_changes_only_on_navigation H actions st Hall).
Defined.

(** ** Loading the stored snapshot *)


Lemma reachable_all_grades H st :
  reachable H st → all_grades_present (classAttendanceData st).
Proof.
  induction 1 as [stored | st a _ IH _].
  - apply load_all_grades.
  - apply handle_all_grades, IH.
Qed.

Lemma union_initial_id (data : ClassAttendanceData) :
  all_grades_present data → data ∪ INITIAL_CLASS_ATTENDANCE_DATA = data.
Proof.
  intros Hall. apply map_eq. intros k.
  destruct (data !! k) as [dates |] eqn:Hk.
  - apply lookup_union_Some_l. exact Hk.
  - rewrite lookup_union_r by exact Hk.
    destruct (INITIAL_CLASS_ATTENDANCE_DATA !! k) as [dates |] eqn:Hi; [| reflexivity].
    apply initial_key in Hi as [_ [g ->]].
    destruct (Hall g) as [dates' Hg]. congruence.
Qed.

(** X10. When the stored text is not empty and parses, [load] keeps the parsed
    snapshot: every key of the snapshot keeps its date map, every record
    read from the loaded store is the record of the snapshot, and a key the
    snapshot lacks is taken from the initial structure.  A snapshot that
    holds all five grades is loaded unchanged; the store of any state the
    component can reach is such a snapshot. *)
Theorem load_keeps_the_snapshot (H : Host) (storedData : string)
    (parsedData : ClassAttendanceData) :
  storedData ≠ "" → JSON_parse H storedData = Some parsedData →
  let data := load H (Item storedData) in
  (∀ k dates, parsedData !! k = Some dates → data !! k = Some dates)
  ∧ (∀ k, parsedData !! k = None → data !! k = INITIAL_CLASS_ATTENDANCE_DATA !! k)
  ∧ (∀ k d, lookup_record data k d = lookup_record parsedData k d)
  ∧ (all_grades_present parsedData → data = parsedData)
  ∧ (∀ H' st, reachable H' st → parsedData = classAttendanceData st →
       data = classAttendanceData st).
Proof.
  intros Hne Hparse. cbv zeta. unfold load.
  destruct (decide (storedData = "")) as [Heq | _]; [contradiction |].
  rewrite Hparse.
  split; [| split; [| split; [| split]]].
  - intros k dates Hk. apply lookup_union_Some_l. exact Hk.
  - intros k Hk. apply lookup_union_r. exact Hk.
  - intros k d. unfold lookup_record.
    destruct (parsedData !! k) as [dates |] eqn:Hk.
    + rewrite (lookup_union_Some_l _ _ _ _ Hk). reflexivity.
    + rewrite lookup_union_r by exact Hk. apply initial_no_records.
  - apply union_initial_id.
  - intros H' st Hreach ->. apply union_initial_id, (reachable_all_grades H'), Hreach.
Qed.

Lemma load_keeps_the_snapshot_witness :
  let snapshot : ClassAttendanceData :=
    {[ "6th Grade" := {[ "2024-06-01" := mkRecord 15 4 ]} ]} in
  let H := mkHost (fun _ => Some snapshot) (fun _ => "1e+21") (fun _ s => s)
                  "2024-06-02" (number_of_Z 210) (number_of_Z 297) in
  "{}" ≠ "" ∧ JSON_parse H "{}" = Some snapshot
  ∧ lookup_record (load H (Item "{}")) "6th Grade" "2024-06-01" = Some (mkRecord 15 4).
Proof.
  intros snapshot H.
  assert (Hne : "{}" ≠ "") by discriminate.
  assert (Hparse : JSON_parse H "{}" = Some snapshot) by reflexivity.
  split; [exact Hne | split; [exact Hparse |]].
  rewrite (proj1 (proj2 (proj2 (load_keeps_the_snapshot H "{}" snapshot Hne Hparse)))
             "6th Grade" "2024-06-01").
  reflexivity.
Defined.


(** * Further properties of the exporters *)

(** ** What the exporters read *)

Lemma foldl_pointwise {A B} (f g : A → B → A) (l : list B) (a : A) :
  (∀ a b, f a b = g a b) → foldl f a l = foldl g a l.
Proof.
  intros Hfg. revert a. induction l as [| b l IH]; intros a; [reflexivity |].
  cbn [foldl]. rewrite Hfg. apply IH.
Qed.

Lemma sortedDates_same_records data1 data2 :
  (∀ g d, lookup_record data1 (grade_value g) d = lookup_record data2 (grade_value g) d) →
  sortedDates data1 = sortedDates data2.
Proof.
  intros Hrec. unfold sortedDates.
  replace (allDates data2) with (allDates data1); [reflexivity |].
  apply set_eq. intros d. rewrite !elem_of_allDates.
  split; intros [g Hg]; exists g; [rewrite <- Hrec | rewrite Hrec]; exact Hg.
Qed.

Lemma export_rows_same_records data1 data2 :
  (∀ g d, lookup_record data1 (grade_value g) d = lookup_record data2 (grade_value g) d) →
  export_rows data1 = export_rows data2.
Proof.
  intros Hrec. unfold export_rows. rewrite (sortedDates_same_records data1 data2 Hrec).
  apply flat_map_ext. intros date. unfold rows_of_date.
  apply flat_map_ext. intros g. rewrite Hrec. reflexivity.
Qed.

Lemma exportToPdf_same_records H data1 data2 :
  (∀ g d, lookup_record data1 (grade_value g) d = lookup_record data2 (grade_value g) d) →
  exportToPdf H data1 = exportToPdf H data2.
Proof.
  intros Hrec. unfold exportToPdf. cbv zeta.
  rewrite (sortedDates_same_records data1 data2 Hrec).
  f_equal. f_equal. apply foldl_pointwise. intros s date.
  unfold pdf_date_step. cbv zeta. f_equal.
  apply foldl_pointwise. intros s' ig. unfold pdf_grade_step. rewrite Hrec. reflexivity.
Qed.



(** ** A store without records *)

Lemma sortedDates_no_records data :
  (∀ g d, lookup_record data (grade_value g) d = None) → sortedDates data = [].
Proof.
  intros Hnone. destruct (sortedDates data) as [| d l] eqn:Hs; [reflexivity |].
  assert (Hd : d ∈ sortedDates data) by (rewrite Hs, elem_of_cons; auto).
  apply elem_of_sortedDates in Hd as [g [r Hr]]. rewrite Hnone in Hr. discriminate Hr.
Qed.

(** X12. With no record for any grade on any date, as on the first run, the
    CSV export is the header line alone and the PDF export is the title
    block followed by the save, without a date section or a new page. *)
Theorem empty_store_exports (H : Host) (data : ClassAttendanceData) :
  (∀ g d, lookup_record data (grade_value g) d = None) →
  exportToCsv H data = csv_prefix ++ csv_header ++ LF
  ∧ lines (csv_document H data) = [csv_header]
  ∧ exportToPdf H data = (pdf_ops (pdf_preamble H) ++ [Save (pdf_filename H)])%list.
Proof.
  intros Hnone. pose proof (sortedDates_no_records data Hnone) as Hs.
  split; [| split].
  - unfold exportToCsv. rewrite Hs. reflexivity.
  - rewrite csv_document_rows. unfold export_rows. rewrite Hs. reflexivity.
  - unfold exportToPdf. cbv zeta. rewrite Hs. reflexivity.
Qed.

Lemma empty_store_exports_witness :
  let H := sample_host in
  let data := load H GetItemThrows in
  (∀ g d, lookup_record data (grade_value g) d = None)
  ∧ exportToCsv H data
    = "data:text/csv;charset=utf-8,"
      ++ "Date,Class Grade,Total Strength,Present,Absent,Present Percentage,Absent Percentage"
      ++ LF.
Proof.
  intros H data.
  assert (Hnone : ∀ g d, lookup_record data (grade_value g) d = None)
    by (intros g d; apply initial_no_records).
  split; [exact Hnone |].
  apply (proj1 (empty_store_exports H data Hnone)).
Defined.

(** ** A commit as the exports see it *)

Lemma StronglySorted_filter_keep {A} (R : relation A) (P : A → Prop)
    `{∀ x, Decision (P x)} (l : list A) :
  StronglySorted R l → StronglySorted R (filter P l).
Proof.
  induction 1 as [| x l Hs IH Hall]; [constructor |].
  rewrite filter_cons. destruct (decide (P x)); [| exact IH].
  constructor; [exact IH |].
  apply Forall_forall. intros y Hy. apply list_elem_of_filter in Hy as [_ Hy].
  eapply Forall_forall in Hall; [exact Hall | exact Hy].
Qed.

Lemma row_before_asym r1 r2 : row_before r1 r2 → row_before r2 r1 → False.
Proof.
  destruct r1 as [[d1 g1] x1], r2 as [[d2 g2] x2]. unfold row_before.
  intros [H12 | [Heq Hlt]] [H21 | [Heq' Hlt']].
  - apply strictly_before_compare in H12, H21.
    rewrite String.compare_antisym, H21 in H12. discriminate H12.
  - destruct H12 as [_ Hne]. congruence.
  - destruct H21 as [_ Hne]. congruence.
  - lia.
Qed.

Lemma sorted_rows_NoDup rows : StronglySorted row_before rows → NoDup rows.
Proof.
  induction 1 as [| row rows Hs IH Hall]; [constructor |].
  constructor; [| exact IH]. intros Hin.
  eapply Forall_forall in Hall; [| exact Hin].
  apply (row_before_asym row row); exact Hall.
Qed.

Lemma sorted_rows_unique rows1 rows2 :
  StronglySorted row_before rows1 → StronglySorted row_before rows2 →
  (∀ row, row ∈ rows1 ↔ row ∈ rows2) → rows1 = rows2.
Proof.
  intros Hs1 Hs2 Hsame.
  assert (Hanti : AntiSymm eq row_before).
  { intros r1 r2 H12 H21. destruct (row_before_asym r1 r2 H12 H21). }
  apply (StronglySorted_unique row_before); [exact Hs1 | exact Hs2 |].
  apply NoDup_Permutation; [apply sorted_rows_NoDup, Hs1 | apply sorted_rows_NoDup, Hs2 |].
  exact Hsame.
Qed.

(** X13. A commit changes one row of the exports and no other: with the row of
    the committed grade and date left out, the records the exporters visit
    after the commit are the ones they visited before, in the same order;
    the row of the committed grade and date is there once and holds the
    committed pair. *)
Theorem commit_changes_one_export_row (data : ClassAttendanceData) (g : ClassGrade)
    (d : string) (p a : Z) :
  let data' := updateDailyClassAttendance g d p a data in
  filter (fun row => row_key row ≠ (d, g)) (export_rows data')
  = filter (fun row => row_key row ≠ (d, g)) (export_rows data)
  ∧ filter (fun row => row_key row = (d, g)) (export_rows data') = [(d, g, mkRecord p a)].
Proof.
  cbv zeta. split.
  - apply sorted_rows_unique;
      try (apply StronglySorted_filter_keep, export_rows_sorted).
    intros [[d' g'] r]. rewrite !list_elem_of_filter, !elem_of_export_rows.
    unfold row_key. cbn [fst].
    split; intros [Hk Hr]; (split; [exact Hk |]).
    + rewrite lookup_record_update_ne in Hr; [exact Hr |].
      intros [= Hg ->]. apply grade_value_inj in Hg. congruence.
    + rewrite lookup_record_update_ne; [exact Hr |].
      intros [= Hg ->]. apply grade_value_inj in Hg. congruence.
  - rewrite export_rows_of_key, lookup_record_update_eq. reflexivity.
Qed.

(** ** The cells of a row *)

(** X14. The line of a record in the CSV text is its date followed by the six
    cell texts of its row in the PDF table, separated by commas. *)
Theorem csv_line_matches_pdf_row (H : Host) (date : string) (grade : ClassGrade)
    (dailyRecord : DailyAttendanceRecord) :
  csv_line H date grade dailyRecord
  = date ++ "," ++ String.concat "," (rowData H grade dailyRecord) ++ LF.
Proof.
  unfold csv_line, rowData. cbn [String.concat]. rewrite !append_assoc. reflexivity.
Qed.

(** ** Page breaks before a row *)

(** X15. A grade with a record on the date adds to the document the page
    break, if one is taken, and then the row, and moves down by the height
    of a row.  The row is drawn where it ends above the bottom margin, or
    else on a new page at height 37, under the repeated title at height 20
    and the repeated table header at height 30.  So when a row fits at
    height 37, no row ends below the bottom margin. *)
Theorem row_starts_above_the_margin (H : Host) (data : ClassAttendanceData)
    (date : string) (s : PdfState) (ig : nat * ClassGrade) (r : DailyAttendanceRecord) :
  lookup_record data (grade_value ig.2) date = Some r →
  let fits y := num_gt (num_add y rowHeight) (num_sub (pageHeight H) margin) = false in
  let s1 := row_page_break H s in
  let s' := pdf_grade_step H data date s ig in
  pdf_ops s' = (pdf_ops s1 ++ draw_row H ig.1 ig.2 r (pdf_y s1))%list
  ∧ pdf_y s' = num_add (pdf_y s1) rowHeight
  ∧ ((fits (pdf_y s) ∧ s1 = s)
     ∨ (pdf_y s1 = number_of_Z 37
        ∧ pdf_ops s1
          = (pdf_ops s ++ draw_continued (number_of_Z 20)
             ++ draw_table_header H (number_of_Z 30)
             ++ [SetFont "helvetica" "normal"])%list))
  ∧ (fits (number_of_Z 37) → fits (pdf_y s1)).
Proof.
  intros Hr. cbv zeta.
  assert (Hbreak :
    (num_gt (num_add (pdf_y s) rowHeight) (num_sub (pageHeight H) margin) = false
     ∧ row_page_break H s = s)
    ∨ (pdf_y (row_page_break H s) = number_of_Z 37
       ∧ pdf_ops (row_page_break H s)
         = (pdf_ops s ++ draw_continued (number_of_Z 20)
            ++ draw_table_header H (number_of_Z 30)
            ++ [SetFont "helvetica" "normal"])%list)).
  { unfold row_page_break.
    destruct (num_gt (num_add (pdf_y s) rowHeight) (num_sub (pageHeight H) margin));
      [right | left; split; reflexivity].
    cbv zeta. split; [vm_compute; reflexivity |].
    unfold emit, advance_y, set_y. cbn [pdf_ops pdf_y].
    rewrite <- !app_assoc. reflexivity. }
  split; [| split; [| split; [exact Hbreak |]]].
  - unfold pdf_grade_step. rewrite Hr. reflexivity.
  - unfold pdf_grade_step. rewrite Hr. reflexivity.
  - intros Hfits. destruct Hbreak as [[Hok ->] | [-> _]]; assumption.
Qed.

Lemma row_starts_above_the_margin_witness :
  let H := sample_host in
  let data := updateDailyClassAttendance SIXTH "2024-06-01" 15 4
                INITIAL_CLASS_ATTENDANCE_DATA in
  let s := mkPdf [] (number_of_Z 280) in
  let s' := pdf_grade_step H data "2024-06-01" s (0%nat, SIXTH) in
  lookup_record data (grade_value SIXTH) "2024-06-01" = Some (mkRecord 15 4)
  ∧ pdf_y s' = number_of_Z 44.
Proof.
  intros H data s s'.
  assert (Hr : lookup_record data (grade_value (0%nat, SIXTH).2) "2024-06-01"
               = Some (mkRecord 15 4)) by reflexivity.
  split; [exact Hr |]. unfold s'.
  rewrite (proj1 (proj2 (row_starts_above_the_margin H data "2024-06-01" s
                           (0%nat, SIXTH) (mkRecord 15 4) Hr))).
  vm_compute. reflexivity.
Defined.


(** * Properties of the attendance table *)

Lemma row_cell_bulk H st g f :
  isBulkEditing st = true →
  row_cell f (table_row H st g)
  = InputCell (get_field f (editableRecord st g)) input_min (input_max g).
Proof. intros Hbulk. unfold table_row. rewrite Hbulk. destruct f; reflexivity. Qed.

Lemma row_cell_idle H st g f :
  isBulkEditing st = false →
  row_cell f (table_row H st g)
  = SpanCell (get_field f (currentDailyRecord (classAttendanceData st) g (selectedDate st))).
Proof. intros Hidle. unfold table_row. rewrite Hidle. destruct f; reflexivity. Qed.

Lemma editable_after_edit_eq g f v st :
  editableRecord (handleEditInputChange g f v st) g
  = set_field f v (default zero_record (editingDailyAttendance st !! grade_value g)).
Proof. unfold editableRecord. rewrite edit_lookup_eq. reflexivity. Qed.

Lemma editable_after_edit_ne g f v st g' :
  g' ≠ g → editableRecord (handleEditInputChange g f v st) g' = editableRecord st g'.
Proof.
  intros Hne. unfold editableRecord. rewrite edit_lookup_ne; [reflexivity |].
  intros Heq. apply grade_value_inj in Heq. contradiction.
Qed.

Lemma get_set_field_eq f v r : get_field f (set_field f v r) = v.
Proof. destruct f; reflexivity. Qed.

Lemma get_set_field_ne f f' v r : f' ≠ f → get_field f' (set_field f v r) = get_field f' r.
Proof. destruct f, f'; intros Hne; first [contradiction | reflexivity]. Qed.

Lemma current_after_save_all st g :
  currentDailyRecord (classAttendanceData (handleSaveAllClick st)) g
    (selectedDate (handleSaveAllClick st))
  = editableRecord st g.
Proof.
  unfold currentDailyRecord, editableRecord. rewrite save_all_date, save_all_lookup.
  destruct (editingDailyAttendance st !! grade_value g); reflexivity.
Qed.

(** ** Typing into a row *)

(** X16. In bulk mode, in any state the component can reach, a field edit
    changes the input it was typed into and nothing else on the table: that
    input holds the typed value, the other nine inputs hold what they held,
    and the percentages of every row and the footer stay as they were,
    since they are computed from the store. *)
Theorem edit_changes_one_input (H : Host) (st : AppState) (g : ClassGrade)
    (f : Field) (v : Z) :
  reachable H st → isBulkEditing st = true →
  let st' := handleEditInputChange g f v st in
  row_cell f (table_row H st' g) = InputCell v input_min (input_max g)
  ∧ (∀ g' f', (g', f') ≠ (g, f) →
       row_cell f' (table_row H st' g') = row_cell f' (table_row H st g'))
  ∧ (∀ g', row_presentPercentage (table_row H st' g')
           = row_presentPercentage (table_row H st g')
           ∧ row_absentPercentage (table_row H st' g')
             = row_absentPercentage (table_row H st g'))
  ∧ table_footer H st' = table_footer H st.
Proof.
  intros Hreach Hbulk. cbv zeta.
  assert (Hbulk' : isBulkEditing (handleEditInputChange g f v st) = true) by exact Hbulk.
  split; [| split; [| split; [intros g'; split; reflexivity | reflexivity]]].
  - rewrite (row_cell_bulk H _ g f Hbulk'), editable_after_edit_eq, get_set_field_eq.
    reflexivity.
  - intros g' f' Hne.
    rewrite (row_cell_bulk H _ g' f' Hbulk'), (row_cell_bulk H st g' f' Hbulk).
    f_equal. destruct (decide (g' = g)) as [-> | Hg].
    + assert (Hf : f' ≠ f) by congruence.
      rewrite editable_after_edit_eq, get_set_field_ne by exact Hf.
      unfold editableRecord.
      destruct (bulk_buffer_complete H st Hreach Hbulk g) as [r ->]. reflexivity.
    + rewrite editable_after_edit_ne by exact Hg. reflexivity.
Qed.

Lemma edit_changes_one_input_witness :
  let H := sample_host in
  let st := handle H BulkEditClick (initial_state H NoItem) in
  let st' := handleEditInputChange SIXTH FieldPresent 15 st in
  reachable H st ∧ isBulkEditing st = true
  ∧ row_cell FieldPresent (table_row H st' SIXTH) = InputCell 15 0 19.
Proof.
  intros H st st'.
  assert (Hreach : reachable H st)
    by (apply reachable_step; [apply reachable_initial | reflexivity]).
  assert (Hbulk : isBulkEditing st = true) by reflexivity.
  split; [exact Hreach | split; [exact Hbulk |]].
  apply (proj1 (edit_changes_one_input H st SIXTH FieldPresent 15 Hreach Hbulk)).
Defined.

(** ** Entering and leaving bulk mode *)

(** X17. Entering bulk mode changes no number on the table: each input holds
    the count its cell showed as text, and the percentages and the footer
    are the same.  Cancelling, after any edits, shows the table and the
    footer as they were before bulk mode was entered. *)
Theorem bulk_entry_keeps_the_numbers (H : Host) (st : AppState) :
  isBulkEditing st = false →
  (∀ g f,
     let v := get_field f (currentDailyRecord (classAttendanceData st) g (selectedDate st)) in
     row_cell f (table_row H st g) = SpanCell v
     ∧ row_cell f (table_row H (handleBulkEditClick st) g)
       = InputCell v input_min (input_max g))
  ∧ (∀ g, row_presentPercentage (table_row H (handleBulkEditClick st) g)
          = row_presentPercentage (table_row H st g)
          ∧ row_absentPercentage (table_row H (handleBulkEditClick st) g)
            = row_absentPercentage (table_row H st g))
  ∧ table_footer H (handleBulkEditClick st) = table_footer H st
  ∧ (∀ edits,
       let st' := handleCancelBulkEditClick (apply_edits edits (handleBulkEditClick st)) in
       table_body H st' = table_body H st ∧ table_footer H st' = table_footer H st).
Proof.
  intros Hidle.
  split; [| split; [intros g; split; reflexivity | split; [reflexivity |]]].
  - intros g f. cbv zeta. split; [apply row_cell_idle, Hidle |].
    rewrite row_cell_bulk by reflexivity.
    unfold editableRecord. rewrite bulk_seed_lookup. reflexivity.
  - intros edits. cbv zeta.
    unfold table_body, table_footer, table_row, handleCancelBulkEditClick.
    cbn [classAttendanceData selectedDate isBulkEditing].
    rewrite session_store, session_date, Hidle. split; reflexivity.
Qed.

Lemma bulk_entry_keeps_the_numbers_witness :
  let H := sample_host in
  let st := mkState (updateDailyClassAttendance SIXTH "2024-06-01" 15 4
                       INITIAL_CLASS_ATTENDANCE_DATA) "2024-06-01" ∅ false in
  isBulkEditing st = false
  ∧ row_cell FieldPresent (table_row H st SIXTH) = SpanCell 15
  ∧ row_cell FieldPresent (table_row H (handleBulkEditClick st) SIXTH) = InputCell 15 0 19.
Proof.
  intros H st.
  assert (Hidle : isBulkEditing st = false) by reflexivity.
  split; [exact Hidle |].
  apply (proj1 (bulk_entry_keeps_the_numbers H st Hidle) SIXTH FieldPresent).
Defined.

(** ** Saving what the inputs show *)

(** X18. "Save All" stores what is on the screen: after it, every row shows as
    text the two counts its inputs held, with the percentages of that
    pair. *)
Theorem save_shows_the_inputs (H : Host) (st : AppState) (g : ClassGrade) :
  isBulkEditing st = true →
  let shown := editableRecord st g in
  row_present (table_row H st g) = InputCell (present shown) input_min (input_max g)
  ∧ row_absent (table_row H st g) = InputCell (absent shown) input_min (input_max g)
  ∧ table_row H (handleSaveAllClick st) g
    = mkRow (grade_value g) (CLASS_STRENGTHS g)
            (SpanCell (present shown)) (SpanCell (absent shown))
            (toFixed1 H (dailyPresentPercentage shown) ++ "%")
            (toFixed1 H (dailyAbsentPercentage shown) ++ "%").
Proof.
  intros Hbulk. cbv zeta. split; [| split].
  - apply (row_cell_bulk H st g FieldPresent Hbulk).
  - apply (row_cell_bulk H st g FieldAbsent Hbulk).
  - unfold table_row. cbv zeta. rewrite current_after_save_all. reflexivity.
Qed.

Lemma save_shows_the_inputs_witness :
  let H := sample_host in
  let st := run H [BulkEditClick; EditInputChange SIXTH FieldPresent 15;
                   EditInputChange SIXTH FieldAbsent 4] (initial_state H NoItem) in
  isBulkEditing st = true
  ∧ table_row H (handleSaveAllClick st) SIXTH
    = mkRow "6th Grade" 19 (SpanCell 15) (SpanCell 4) "78.9%" "21.1%".
Proof.
  intros H st.
  assert (Hbulk : isBulkEditing st = true) by reflexivity.
  split; [exact Hbulk |].
  rewrite (proj2 (proj2 (save_shows_the_inputs H st SIXTH Hbulk))).
  vm_compute. reflexivity.
Defined.

(** ** A date without records *)

(** X19. On a date for which no grade has a record, outside bulk mode, every
    row shows 0 present, 0 absent, 0.0% and 0.0%, and the footer shows the
    total strength 236, the totals 0 and 0, and 0.0% twice. *)
Theorem date_without_records_shows_zeros (H : Host) (st : AppState) :
  (∀ g, lookup_record (classAttendanceData st) (grade_value g) (selectedDate st) = None) →
  isBulkEditing st = false →
  (∀ g, table_row H st g
        = mkRow (grade_value g) (CLASS_STRENGTHS g) (SpanCell 0) (SpanCell 0) "0.0%" "0.0%")
  ∧ table_footer H st
    = mkFooter (number_of_Z 236) (number_of_Z 0) (number_of_Z 0) "0.0%" "0.0%".
Proof.
  intros Hnone Hidle. split.
  - intros g. unfold table_row, currentDailyRecord. cbv zeta.
    rewrite Hnone, Hidle. vm_compute. reflexivity.
  - unfold table_footer, total_of, CLASS_GRADES. cbn [foldl fmap option_fmap option_map].
    rewrite !Hnone. vm_compute. reflexivity.
Qed.

Lemma date_without_records_shows_zeros_witness :
  let H := sample_host in
  let st := initial_state H NoItem in
  (∀ g, lookup_record (classAttendanceData st) (grade_value g) (selectedDate st) = None)
  ∧ isBulkEditing st = false
  ∧ table_footer H st
    = mkFooter (number_of_Z 236) (number_of_Z 0) (number_of_Z 0) "0.0%" "0.0%".
Proof.
  intros H st.
  assert (Hnone : ∀ g,
    lookup_record (classAttendanceData st) (grade_value g) (selectedDate st) = None)
    by (intros g; apply initial_no_records).
  assert (Hidle : isBulkEditing st = false) by reflexivity.
  split; [exact Hnone | split; [exact Hidle |]].
  apply (proj2 (date_without_records_shows_zeros H st Hnone Hidle)).
Defined.


(** ** The footer after a save *)

(** X20. After "Save All" each total of the footer is the sum, in the order of
    the grades, of the counts the inputs of that column held. *)
Theorem save_totals_the_inputs (st : AppState) (f : Field) :
  let st' := handleSaveAllClick st in
  total_of f (classAttendanceData st') (selectedDate st')
  = foldl (fun sum grade =>
             num_add sum (number_of_Z (get_field f (editableRecord st grade))))
          (number_of_Z 0) CLASS_GRADES.
Proof.
  cbv zeta. unfold total_of. apply foldl_pointwise. intros sum g. do 2 f_equal.
  rewrite save_all_date, save_all_lookup. unfold editableRecord, currentDailyRecord.
  destruct (editingDailyAttendance st !! grade_value g) as [r |]; [reflexivity |].
  destruct (lookup_record (classAttendanceData st) (grade_value g) (selectedDate st));
    destruct f; reflexivity.
Qed.

(** * The keys of the store *)

Lemma update_dom data g d p a :
  is_Some (data !! grade_value g) →
  dom (updateDailyClassAttendance g d p a data) = dom data.
Proof.
  intros Hg. unfold updateDailyClassAttendance. rewrite dom_insert_L.
  apply set_eq. intros k. rewrite elem_of_union, elem_of_singleton.
  split; [intros [-> | Hk]; [apply elem_of_dom, Hg | exact Hk] | auto].
Qed.

Lemma save_loop_dom (buf : EditBuffer) date grades st :
  all_grades_present (classAttendanceData st) →
  dom (classAttendanceData (save_loop buf date grades st)) = dom (classAttendanceData st).
Proof.
  revert st. induction grades as [| g grades IH]; intros st Hall; [reflexivity |].
  rewrite save_loop_cons.
  destruct (buf !! grade_value g) as [r |]; [| apply IH, Hall].
  rewrite IH.
  - apply update_dom, Hall.
  - apply update_all_grades, Hall.
Qed.

Lemma handle_dom H a st :
  all_grades_present (classAttendanceData st) →
  dom (classAttendanceData (handle H a st)) = dom (classAttendanceData st).
Proof.
  intros Hall. destruct a; try reflexivity.
  cbn [handle]. rewrite save_all_store. apply save_loop_dom, Hall.
Qed.

Lemma run_dom H actions st :
  all_grades_present (classAttendanceData st) →
  dom (classAttendanceData (run H actions st)) = dom (classAttendanceData st).
Proof.
  revert st. induction actions as [| a actions IH]; intros st Hall; [reflexivity |].
  change (run H (a :: actions) st) with (run H actions (handle H a st)).
  rewrite IH by (apply handle_all_grades, Hall). apply handle_dom, Hall.
Qed.

(** X21. The component never adds a key to the store and never removes one:
    whatever the gestures, the keys of the store are those it was loaded
    with, the five grades among them.  A key of the stored snapshot that is
    not a grade stays in the store for the whole session. *)
Theorem store_keys_never_change (H : Host) (stored : StorageRead)
    (actions : list Action) :
  dom (classAttendanceData (run H actions (initial_state H stored))) = dom (load H stored)
  ∧ grade_keys ⊆ dom (load H stored)
  ∧ (∀ st, all_grades_present (classAttendanceData st) →
       dom (classAttendanceData (run H actions st)) = dom (classAttendanceData st)).
Proof.
  split; [| split].
  - apply (run_dom H actions (initial_state H stored)), load_all_grades.
  - intros k Hk. unfold grade_keys in Hk.
    apply elem_of_list_to_set, list_elem_of_fmap in Hk as [g [-> _]].
    apply elem_of_dom, load_all_grades.
  - intros st. apply run_dom.
Qed.
